(** * INSPECTRA dashboard: a shallow embedding of [streamlitapp.py]

    The script is a top-to-bottom Streamlit page over five pandas frames
    loaded from the warehouse.  One run of the script is modelled as a
    function of its [World] (the warehouse session, the state of the input
    widgets, the clock) to the trace of Streamlit calls it makes and the
    way it ends: it returns, an exception reaches the top, or [st.stop()]
    ends it.

    - A frame is its column labels and its rows; a row maps labels to cells.
    - A cell is a string, an integer, a double (finite ones by their exact
      rational value, the infinities, NaN).  Comparisons of a score with the
      integer thresholds are exact on these values.  Where the script
      computes in doubles ([n / 5], [x * 100]) the quotient is kept exact
      or the rounding is a parameter of the runtime.
    - Exceptions are instances of [Exception], what [except Exception]
      names; the signal of [st.stop()] is a separate status.
    - The active session exists and Streamlit's own calls do not raise. *)

From Stdlib Require Import String Ascii List Bool ZArith QArith Qminmax Lia Lqa DecimalString.
From Stdlib Require PrimFloat Uint63.
Import ListNotations.
Local Open Scope string_scope.
Local Open Scope list_scope.

(** ** Python values and exceptions *)

(** A cell of a frame.  [Int] is an integer (numpy int64 / Python int),
    [Float] a finite double identified by its exact rational value, [Inf]
    the two infinite doubles, [NaN] the missing value. *)
Inductive cell : Type :=
| Str (s : string)
| Int (z : Z)
| Float (q : Q)
| Inf (negative : bool)
| NaN.

(** An instance of Python's [Exception]: its class name and [str(e)]. *)
Record exn : Type := mkExn { exn_class : string; exn_msg : string }.

Definition KeyError (key : string) : exn :=
  mkExn "KeyError" ("'" ++ key ++ "'").
Definition IndexError : exn :=
  mkExn "IndexError" "single positional indexer is out-of-bounds".
Definition TypeError : exn :=
  mkExn "TypeError" "'>=' not supported between instances of 'str' and 'int'".
Definition ValueError (msg : string) : exn :=
  mkExn "ValueError" msg.
Definition OverflowError (msg : string) : exn :=
  mkExn "OverflowError" msg.

(** Result of evaluating a Python expression. *)
Inductive res (A : Type) : Type :=
| Ok (a : A)
| Raise (e : exn).
Arguments Ok {A} a.
Arguments Raise {A} e.

Definition res_bind {A B} (r : res A) (f : A -> res B) : res B :=
  match r with
  | Ok a => f a
  | Raise e => Raise e
  end.

Definition res_map {A B} (f : A -> B) (r : res A) : res B :=
  res_bind r (fun a => Ok (f a)).

Fixpoint res_mapM {A B} (f : A -> res B) (l : list A) : res (list B) :=
  match l with
  | [] => Ok []
  | a :: t => res_bind (f a) (fun b => res_bind (res_mapM f t) (fun bs => Ok (b :: bs)))
  end.

(** [x == y] on scalars. *)
Definition cell_eqb (x y : cell) : bool :=
  match x, y with
  | Str a, Str b => String.eqb a b
  | Int a, Int b => Z.eqb a b
  | Int a, Float q => Qeq_bool (inject_Z a) q
  | Float q, Int a => Qeq_bool q (inject_Z a)
  | Float p, Float q => Qeq_bool p q
  | Inf a, Inf b => Bool.eqb a b
  | _, _ => false
  end.

(** [x >= k] for an integer literal [k]: exact on numbers (the literal is a
    double without rounding), [False] on NaN, a [TypeError] on a string. *)
Definition cell_ge (x : cell) (k : Z) : res bool :=
  match x with
  | Int z => Ok (k <=? z)%Z
  | Float q => Ok (Qle_bool (inject_Z k) q)
  | Inf negative => Ok (negb negative)
  | NaN => Ok false
  | Str _ => Raise TypeError
  end.

(** The value of a cell that holds a finite number. *)
Definition cell_num (x : cell) : option Q :=
  match x with
  | Int z => Some (inject_Z z)
  | Float q => Some q
  | _ => None
  end.

(** ** Risk classification *)

(** The [if/elif] chain of the explainable-AI loop, as [(severity, reason)]. *)
Definition classify (score : cell) : res (string * string) :=
  res_bind (cell_ge score 80) (fun b80 =>
  if b80 then Ok ("HIGH", "Severe structural or safety defect")
  else res_bind (cell_ge score 60) (fun b60 =>
  if b60 then Ok ("MEDIUM", "Electrical hazard or dampness detected")
  else res_bind (cell_ge score 30) (fun b30 =>
  if b30 then Ok ("LOW", "Minor maintenance or finishing issue")
  else Ok ("SAFE", "No significant defects found")))).

(** The lambda applied to [ROOM_RISK_SCORE] for the heatmap table. *)
Definition heatmap_label (x : cell) : res string :=
  res_bind (cell_ge x 80) (fun b80 =>
  if b80 then Ok "High"
  else res_bind (cell_ge x 60) (fun b60 =>
  if b60 then Ok "Medium"
  else res_bind (cell_ge x 30) (fun b30 =>
  if b30 then Ok "Low" else Ok "Safe"))).

(** ** pandas frames *)

(** A row is a Series indexed by column label. *)
Definition Row : Type := list (string * cell).

Record DataFrame : Type := mkDF { columns : list string; rows : list Row }.

(** [pd.DataFrame()]: no columns, no rows. *)
Definition pd_DataFrame : DataFrame := mkDF [] [].

(** [df.empty]: some axis has length 0. *)
Definition df_empty (df : DataFrame) : bool :=
  (length (columns df) =? 0)%nat || (length (rows df) =? 0)%nat.

Definition has_column (df : DataFrame) (c : string) : bool :=
  existsb (String.eqb c) (columns df).

Fixpoint row_lookup (c : string) (r : Row) : option cell :=
  match r with
  | [] => None
  | (k, v) :: t => if String.eqb c k then Some v else row_lookup c t
  end.

(** [row[c]] *)
Definition row_getitem (c : string) (r : Row) : res cell :=
  match row_lookup c r with
  | Some v => Ok v
  | None => Raise (KeyError c)
  end.

(** [row.get(c, default)] *)
Definition row_get (c : string) (default : cell) (r : Row) : cell :=
  match row_lookup c r with
  | Some v => v
  | None => default
  end.

(** [df[c]]: the column as a Series, or [KeyError]. *)
Definition df_getitem (c : string) (df : DataFrame) : res (list cell) :=
  if has_column df c then Ok (map (row_get c NaN) (rows df))
  else Raise (KeyError c).

(** Boolean indexing: the rows whose mask entry is [True]. *)
Fixpoint select {A} (l : list A) (mask : list bool) : list A :=
  match l, mask with
  | a :: l', b :: mask' => if b then a :: select l' mask' else select l' mask'
  | _, _ => []
  end.

Definition df_mask (df : DataFrame) (mask : list bool) : DataFrame :=
  mkDF (columns df) (select (rows df) mask).

(** [df[df[c] == v]] *)
Definition df_where_eq (df : DataFrame) (c : string) (v : cell) : res DataFrame :=
  res_bind (df_getitem c df) (fun col =>
  Ok (df_mask df (map (fun x => cell_eqb x v) col))).

(** [df[df[c] >= k]] *)
Definition df_where_ge (df : DataFrame) (c : string) (k : Z) : res DataFrame :=
  res_bind (df_getitem c df) (fun col =>
  res_bind (res_mapM (fun x => cell_ge x k) col) (fun mask =>
  Ok (df_mask df mask))).

(** [.iloc[0]] on a frame or a Series. *)
Definition iloc0 {A} (l : list A) : res A :=
  match l with
  | a :: _ => Ok a
  | [] => Raise IndexError
  end.

(** [.shape[0]] and [len(df)] *)
Definition shape0 (df : DataFrame) : nat := length (rows df).

(** Keys as [Series.unique()] hashes them: NaN is one key. *)
Definition same_key (x y : cell) : bool :=
  cell_eqb x y || match x, y with NaN, NaN => true | _, _ => false end.

(** [Series.unique()]: the values in order of first appearance. *)
Fixpoint unique (l : list cell) : list cell :=
  match l with
  | [] => []
  | x :: t => x :: filter (fun y => negb (same_key x y)) (unique t)
  end.

(** [row[c] = v] on one row: replace in place or append. *)
Fixpoint row_set (c : string) (v : cell) (r : Row) : Row :=
  match r with
  | [] => [(c, v)]
  | (k, x) :: t => if String.eqb c k then (k, v) :: t else (k, x) :: row_set c v t
  end.

(** [df[c] = values], for a Series of the frame's own length. *)
Definition df_setitem (df : DataFrame) (c : string) (values : list cell) : DataFrame :=
  mkDF (if has_column df c then columns df else columns df ++ [c])
       (map (fun rv => row_set c (snd rv) (fst rv)) (combine (rows df) values)).

(** [df[[c1; ...; cn]]] *)
Definition df_project (df : DataFrame) (cs : list string) : res DataFrame :=
  match filter (fun c => negb (has_column df c)) cs with
  | [] => Ok (mkDF cs (map (fun r => map (fun c => (c, row_get c NaN r)) cs) (rows df)))
  | c :: _ => Raise (KeyError c)
  end.

(** [df.set_index(k)[v]]: the Series of column [v] indexed by column [k]. *)
Definition df_indexed (df : DataFrame) (k v : string) : res (list (cell * cell)) :=
  if has_column df k then
    if has_column df v && negb (String.eqb k v) then
      Ok (map (fun r => (row_get k NaN r, row_get v NaN r)) (rows df))
    else Raise (KeyError v)
  else Raise (KeyError k).

(** ** Streamlit: widgets, the trace of a run and its status *)

Local Set Warnings "-register-all".

Inductive widget : Type :=
| set_page_config (page_title layout : string)
| title (body : string)
| markdown (body : string)
| divider
| error (body : string)
| warning (body : string)
| info (body : string)
| success (body : string)
| sidebar_header (body : string)
| sidebar_selectbox (label : string) (options : list string)
| sidebar_checkbox (label : string)
| subheader (body : string)
| selectbox (label : string) (options : list cell)
| st_columns (n : nat)
| in_column (i : nat) (body : list widget)
| metric (label : string) (value : cell)
| caption (body : string)
| bar_chart (data : list (cell * cell))
| dataframe (df : DataFrame)
| expander (label : string) (body : list widget)
| progress (value : Q)
| text_area (label value : string) (height : Z)
| download_button (label data file_name mime : string)
| image (url : cell)
| line_chart (data : list (Z * cell)).

(** How a run ends: the statement returned, an exception reached the top of
    the script, or [st.stop()] ended it. *)
Inductive status (A : Type) : Type :=
| Return (a : A)
| Uncaught (e : exn)
| Stopped.
Arguments Return {A} a.
Arguments Uncaught {A} e.
Arguments Stopped {A}.

(** A statement: the widgets it renders, in order, and how it ends. *)
Definition M (A : Type) : Type := (list widget * status A)%type.

Definition ret {A} (a : A) : M A := ([], Return a).

Definition bind {A B} (m : M A) (f : A -> M B) : M B :=
  match m with
  | (tr, Return a) => let (tr', s) := f a in (tr ++ tr', s)
  | (tr, Uncaught e) => (tr, Uncaught e)
  | (tr, Stopped) => (tr, Stopped)
  end.

Notation "x <- m ;; k" := (bind m (fun x => k))
  (at level 61, m at next level, right associativity).
Notation "m ;;; k" := (bind m (fun _ => k))
  (at level 61, right associativity).

(** A Streamlit call that renders one widget. *)
Definition st (w : widget) : M unit := ([w], Return tt).

(** [st.stop()] *)
Definition st_stop {A} : M A := ([], Stopped).

(** A Python expression evaluated inside the script. *)
Definition eval {A} (r : res A) : M A :=
  match r with
  | Ok a => ret a
  | Raise e => ([], Uncaught e)
  end.

(** [try: m  except Exception as e: h e].  The signal of [st.stop()] is not
    an [Exception] and passes through. *)
Definition try_except {A} (m : M A) (h : exn -> M A) : M A :=
  match m with
  | (tr, Uncaught e) => let (tr', s) := h e in (tr ++ tr', s)
  | _ => m
  end.

(** [with container: body] *)
Definition within {A} (container : list widget -> widget) (body : M A) : M A :=
  let (tr, s) := body in ([container tr], s).

(** [for x in l: body x] *)
Fixpoint for_each {A} (l : list A) (body : A -> M unit) : M unit :=
  match l with
  | [] => ret tt
  | a :: t => body a ;;; for_each t body
  end.

(** [for i, x in enumerate(l): body i x], counting from [i]. *)
Fixpoint for_enumerate {A} (i : nat) (l : list A) (body : nat -> A -> M unit) : M unit :=
  match l with
  | [] => ret tt
  | a :: t => body i a ;;; for_enumerate (S i) t body
  end.

(** The trace and the status of a run. *)
Definition trace {A} (m : M A) : list widget := fst m.
Definition outcome {A} (m : M A) : status A := snd m.

(** ** Aggregation and filtering *)

(** [room_df[room_df["PROPERTY_ID"] == property_id].shape[0]] *)
Definition rooms_inspected (room_df : DataFrame) (property_id : cell) : res nat :=
  res_map shape0 (df_where_eq room_df "PROPERTY_ID" property_id).

(** ["High" if rooms_inspected >= 3 else "Medium"] *)
Definition confidence (rooms_inspected : nat) : string :=
  if (3 <=? rooms_inspected)%nat then "High" else "Medium".

(** Python's [min(a, b)]: [b] when [b < a], else [a]. *)
Definition py_min (a b : Q) : Q :=
  if Qle_bool a b then a else b.

(** [min(rooms_inspected / 5, 1.0)], as the exact quotient.  Python rounds
    the quotient to the nearest double; the bound [1.0] is exact. *)
Definition coverage_ratio (rooms_inspected : nat) : Q :=
  py_min (Z.of_nat rooms_inspected # 5) 1.

(** The rows shown in the room-wise breakdown. *)
Definition room_view (room_df : DataFrame) (property_id : cell)
    (only_high_risk : bool) : res DataFrame :=
  res_bind (df_where_eq room_df "PROPERTY_ID" property_id) (fun view =>
  if only_high_risk then df_where_ge view "ROOM_RISK_SCORE" 60
  else Ok view).

(** ** The script *)

Definition LF : string := String (ascii_of_nat 10) EmptyString.

(** An f-string, part by part. *)
Definition fstring (parts : list string) : string := String.concat "" parts.

Definition str_nat (n : nat) : string := NilEmpty.string_of_uint (Nat.to_uint n).
Definition str_Z (z : Z) : string := NilEmpty.string_of_int (Z.to_int z).

(** numpy's int64 arithmetic wraps around. *)
Definition wrap64 (z : Z) : Z :=
  ((z + 2 ^ 63) mod 2 ^ 64 - 2 ^ 63)%Z.

(** [s * n] on a string. *)
Fixpoint str_repeat (s : string) (n : nat) : string :=
  match n with
  | O => ""
  | S n' => String.append s (str_repeat s n')
  end.

(** What the script reads from outside: the warehouse session, the state of
    the three input widgets and the clock. *)
Record World : Type := mkWorld {
  session_sql : string -> res DataFrame;
  ui_focus : nat;
  ui_only_high_risk : bool;
  ui_property : nat;
  today : Z
}.

(** The five fixed queries. *)
Definition property_query : string := "SELECT * FROM INSPECTRA_DB.CORE.PROPERTY_RISK".
Definition room_query : string := "SELECT * FROM INSPECTRA_DB.CORE.ROOM_RISK".
Definition summary_query : string := "SELECT * FROM INSPECTRA_DB.CORE.PROPERTY_SUMMARY".
Definition image_query : string := "SELECT * FROM INSPECTRA_DB.CORE.ROOM_IMAGES".
Definition bank_query : string := "SELECT * FROM INSPECTRA_DB.CORE.BANK_RISK_VIEW".

(** One day, in the nanoseconds of a pandas Timestamp. *)
Definition day_ns : Z := 86400000000000.

(** [pd.date_range(end=t, periods=n)] *)
Definition date_range_end (t : Z) (n : nat) : list Z :=
  map (fun i => (t - Z.of_nat (n - 1 - i) * day_ns)%Z) (seq 0 n).

(** Builtins of the Python runtime the script relies on: [repr] of a
    finite double, [int] of a string, and the double nearest to a rational
    (a [Float], or an [Inf] out of range). *)
Class PythonRuntime : Type := {
  repr_float : Q -> string;
  int_of_str : string -> option Z;
  round64 : Q -> cell
}.

Section Script.

Context {py : PythonRuntime}.

(** [str(x)], as an f-string formats a value. *)
Definition str (x : cell) : string :=
  match x with
  | Str s => s
  | Int z => str_Z z
  | Float q => repr_float q
  | Inf negative => if negative then "-inf" else "inf"
  | NaN => "nan"
  end.

(** [int(x)] *)
Definition py_int (x : cell) : res Z :=
  match x with
  | Int z => Ok z
  | Float q => Ok (Z.quot (Qnum q) (Zpos (Qden q)))
  | Inf _ => Raise (OverflowError "cannot convert float infinity to integer")
  | NaN => Raise (ValueError "cannot convert float NaN to integer")
  | Str s =>
      match int_of_str s with
      | Some z => Ok z
      | None => Raise (ValueError (fstring ["invalid literal for int() with base 10: '"; s; "'"]))
      end
  end.

(** [x * 100] *)
Definition times100 (x : cell) : cell :=
  match x with
  | Int z => Int (wrap64 (z * 100))
  | Float q => round64 (q * 100)
  | Inf negative => Inf negative
  | NaN => NaN
  | Str s => Str (str_repeat s 100)
  end.

(** *** Helper: load data safely *)
Definition load_df (session : string -> res DataFrame) (query : string) : M DataFrame :=
  try_except (eval (session query))
    (fun e => st (error (fstring ["Data load failed: "; exn_msg e])) ;;;
              ret pd_DataFrame).

(** *** Page setup *)
Definition page_setup : M unit :=
  st (set_page_config "INSPECTRA | AI Home Inspection" "wide") ;;;
  st (title "🏠 INSPECTRA") ;;;
  st (markdown (fstring
        ["**AI-Assisted Home & Building Inspection Workspace**  "; LF;
         "A transparent, explainable system to assess housing safety."])) ;;;
  st divider.

(** *** Load core tables *)
Definition load_core_tables (w : World)
  : M (DataFrame * DataFrame * DataFrame * DataFrame * DataFrame) :=
  property_df <- load_df (session_sql w) property_query ;;
  room_df <- load_df (session_sql w) room_query ;;
  summary_df <- load_df (session_sql w) summary_query ;;
  image_df <- load_df (session_sql w) image_query ;;
  bank_df <- load_df (session_sql w) bank_query ;;
  ret (property_df, room_df, summary_df, image_df, bank_df).

(** *** Sidebar controls *)
Definition focus_options : list string :=
  ["Overall"; "Structural"; "Electrical"; "Finishing"].

Definition sidebar_controls (w : World) : M (string * bool) :=
  st (sidebar_header "Inspection Settings") ;;;
  st (sidebar_selectbox "Inspection Focus" focus_options) ;;;
  let focus := nth (ui_focus w) focus_options "Overall" in
  st (sidebar_checkbox "Highlight only high-risk rooms") ;;;
  ret (focus, ui_only_high_risk w).

(** *** Property selection *)

(** The option a selectbox returns: the chosen one, the first by default,
    [None] (here [NaN], equal to nothing) when there is none. *)
Definition chosen (options : list cell) (i : nat) : cell :=
  nth i options (hd NaN options).

Definition property_selection (w : World) (property_df : DataFrame) : M (cell * Row) :=
  st (subheader "Select Property") ;;;
  ids <- eval (df_getitem "PROPERTY_ID" property_df) ;;
  st (selectbox "Property ID" (unique ids)) ;;;
  let property_id := chosen (unique ids) (ui_property w) in
  matching <- eval (df_where_eq property_df "PROPERTY_ID" property_id) ;;
  property_row <- eval (iloc0 (rows matching)) ;;
  ret (property_id, property_row).

(** *** Key metrics *)
Definition key_metrics (property_row : Row) (room_df : DataFrame) (property_id : cell)
  : M (nat * string) :=
  st (subheader "Overall Risk Assessment") ;;;
  st (st_columns 3) ;;;
  risk_level <- eval (row_getitem "RISK_LEVEL" property_row) ;;
  st (in_column 0 [metric "Risk Level" risk_level]) ;;;
  total_risk <- eval (res_bind (row_getitem "TOTAL_RISK" property_row) py_int) ;;
  st (in_column 1 [metric "Total Risk Score" (Int total_risk)]) ;;;
  rooms_inspected <- eval (rooms_inspected room_df property_id) ;;
  let confidence := confidence rooms_inspected in
  st (in_column 2 [metric "Inspection Confidence" (Str confidence)]) ;;;
  st divider ;;;
  ret (rooms_inspected, confidence).

(** *** Room-wise risk breakdown *)
Definition room_breakdown (room_df : DataFrame) (property_id : cell)
    (only_high_risk : bool) : M DataFrame :=
  st (subheader "Room-wise Risk Distribution") ;;;
  room_view <- eval (room_view room_df property_id only_high_risk) ;;
  st (caption "Risk score per room based on observed inspection findings.") ;;;
  chart <- eval (df_indexed room_view "ROOM_TYPE" "ROOM_RISK_SCORE") ;;
  st (bar_chart chart) ;;;
  st (dataframe room_view) ;;;
  st divider ;;;
  ret room_view.

(** *** Room risk heatmap *)
Definition room_heatmap (room_view : DataFrame) : M unit :=
  st (subheader "🌡️ Room Risk Heatmap") ;;;
  let heatmap_df := room_view in
  scores <- eval (df_getitem "ROOM_RISK_SCORE" heatmap_df) ;;
  labels <- eval (res_mapM heatmap_label scores) ;;
  let heatmap_df := df_setitem heatmap_df "RISK_LEVEL" (map Str labels) in
  table <- eval (df_project heatmap_df ["ROOM_TYPE"; "ROOM_RISK_SCORE"; "RISK_LEVEL"]) ;;
  st (dataframe table) ;;;
  st divider.

(** *** Explainable AI panel *)
Definition explain_room (row : Row) : M unit :=
  score <- eval (row_getitem "ROOM_RISK_SCORE" row) ;;
  sr <- eval (classify score) ;;
  let severity := fst sr in
  let reason := snd sr in
  room_type <- eval (row_getitem "ROOM_TYPE" row) ;;
  within (expander (fstring ["🚪 "; str room_type]))
    (st (markdown (fstring ["**Room Risk Score:** "; str score])) ;;;
     st (markdown (fstring ["**AI Explanation:** "; reason])) ;;;
     if String.eqb severity "HIGH" then st (error "High-confidence safety risk")
     else if String.eqb severity "MEDIUM" then st (warning "Moderate risk, attention advised")
     else if String.eqb severity "LOW" then st (info "Low risk, routine maintenance suggested")
     else st (success "Room appears safe")).

Definition explain_panel (room_view : DataFrame) : M unit :=
  st (subheader "🧠 Explainable AI – Room-Level Risk Reasoning") ;;;
  st (caption (fstring
        ["AI reasoning shows which defects contributed to risk scores. ";
         "Transparent and auditor-friendly."])) ;;;
  for_each (rows room_view) explain_room ;;;
  st divider.

(** *** Inspection coverage *)
Definition inspection_coverage (rooms_inspected : nat) : M unit :=
  st (subheader "Inspection Coverage") ;;;
  st (metric "Rooms Inspected" (Int (Z.of_nat rooms_inspected))) ;;;
  st (progress (coverage_ratio rooms_inspected)) ;;;
  st (caption "More inspected rooms increase confidence in the final risk score.") ;;;
  st divider.

(** *** Plain-language summary *)
Definition summary_lookup (summary_df : DataFrame) (property_id : cell) : res cell :=
  res_bind (df_where_eq summary_df "PROPERTY_ID" property_id) (fun matching =>
  res_bind (df_getitem "SUMMARY_TEXT" matching) iloc0).

Definition plain_summary (summary_df : DataFrame) (property_id : cell)
    (property_row : Row) : M unit :=
  st (subheader "Plain-Language Inspection Summary") ;;;
  summary_text <- eval (summary_lookup summary_df property_id) ;;
  risk_level <- eval (row_getitem "RISK_LEVEL" property_row) ;;
  (if cell_eqb risk_level (Str "HIGH") then st (error (str summary_text))
   else
     risk_level <- eval (row_getitem "RISK_LEVEL" property_row) ;;
     if cell_eqb risk_level (Str "MEDIUM") then st (warning (str summary_text))
     else st (success (str summary_text))) ;;;
  st divider.

(** *** AI-generated report *)
Definition report_text (property_id : cell) (property_row : Row)
    (rooms_inspected : nat) (confidence : string) : res string :=
  res_bind (row_getitem "RISK_LEVEL" property_row) (fun risk_level =>
  res_bind (row_getitem "TOTAL_RISK" property_row) (fun total_risk =>
  Ok (fstring
    [LF;
     "PROPERTY ID: "; str property_id; LF;
     LF;
     "OVERALL RISK LEVEL: "; str risk_level; LF;
     "TOTAL RISK SCORE: "; str total_risk; LF;
     LF;
     "INSPECTION COVERAGE:"; LF;
     "- Rooms inspected: "; str_nat rooms_inspected; LF;
     "- Confidence level: "; confidence; LF;
     LF;
     "KEY AI FINDINGS:"; LF;
     "- High-risk rooms detected"; LF;
     "- Electrical/damp issues identified"; LF;
     "- Structural safety evaluated using transparent thresholds"; LF;
     LF;
     "RECOMMENDATION:"; LF;
     "Immediate corrective inspection advised for high-risk rooms."; LF;
     "Preventive maintenance recommended for medium-risk rooms."; LF]))).

Definition report_file_name (property_id : cell) : string :=
  fstring [str property_id; "_AI_Inspection_Report.txt"].

Definition report (property_id : cell) (property_row : Row)
    (rooms_inspected : nat) (confidence : string) : M unit :=
  st (subheader "🤖 AI-Generated Inspection Report") ;;;
  report_text <- eval (report_text property_id property_row rooms_inspected confidence) ;;
  st (text_area "Preview (Explainable AI Output)" report_text 260) ;;;
  st (download_button "📥 Download AI Inspection Report (TXT)" report_text
        (report_file_name property_id) "text/plain") ;;;
  st divider.

(** *** Risk severity guide *)
Definition severity_guide : M unit :=
  st (subheader "Risk Severity Guide") ;;;
  st (markdown (fstring
        [LF;
         "- 🟥 **High (70–100):** Structural or serious safety hazards  "; LF;
         "- 🟧 **Medium (30–69):** Electrical/damp issues  "; LF;
         "- 🟩 **Low (1–29):** Minor cosmetic/maintenance issues  "; LF;
         "- ✅ **Safe (0):** No visible defects  "; LF])) ;;;
  st divider.

(** *** AI vision findings *)
Definition show_image (i : nat) (row : Row) : M unit :=
  within (in_column (i mod 3))
    (st (image (row_get "IMAGE_URL" (Str "https://via.placeholder.com/200") row)) ;;;
     room_type <- eval (row_getitem "ROOM_TYPE" row) ;;
     let defect_label := row_get "DEFECT_LABEL" (Str "Unknown") row in
     percent <- eval (py_int (times100 (row_get "DEFECT_CONFIDENCE" (Int 0) row))) ;;
     st (caption (fstring
           [str room_type; " – "; str defect_label;
            " (Confidence: "; str_Z percent; "%)"]))).

Definition vision_findings (image_df : DataFrame) (property_id : cell) : M unit :=
  st (subheader "🖼️ Detected Defects (Sample Images)") ;;;
  img_view <- eval (df_where_eq image_df "PROPERTY_ID" property_id) ;;
  st (st_columns 3) ;;;
  for_enumerate 0 (rows img_view) show_image ;;;
  st divider.

(** *** Bank / mortgage signal *)
Definition bank_lookup (bank_df : DataFrame) (property_id : cell) : res Row :=
  res_bind (df_where_eq bank_df "PROPERTY_ID" property_id) (fun matching =>
  iloc0 (rows matching)).

Definition bank_signal (bank_df : DataFrame) (property_id : cell) : M unit :=
  st (subheader "🏦 Bank / Mortgage Risk Signal") ;;;
  bank_row <- eval (bank_lookup bank_df property_id) ;;
  let decision := row_get "BANK_DECISION" (Str "MANUAL_REVIEW") bank_row in
  (if cell_eqb decision (Str "LOAN_REJECT")
   then st (error "Loan not recommended due to safety risks")
   else if cell_eqb decision (Str "MANUAL_REVIEW")
   then st (warning "Manual review required")
   else st (success "Property suitable for standard loan approval")) ;;;
  st divider.

(** *** Risk trend over time *)
Definition risk_trend (w : World) (property_df : DataFrame) : M unit :=
  st (subheader "📉 Risk Trend Over Time") ;;;
  let trend_df := property_df in
  let inspection_date := date_range_end (today w) (shape0 trend_df) in
  total_risk <- eval (df_getitem "TOTAL_RISK" trend_df) ;;
  st (line_chart (combine inspection_date total_risk)) ;;;
  st divider.

(** *** Footer *)
Definition footer : M unit :=
  st (caption (fstring
        ["INSPECTRA applies explainable AI-assisted logic to inspection data ";
         "to help families, banks, and regulators detect unsafe housing early."])) ;;;
  st (caption "Developed by **Krish Bhatia** | CodeRED").

(** *** The page below the empty-table guard *)
Definition dashboard (w : World)
    (property_df room_df summary_df image_df bank_df : DataFrame) : M unit :=
  controls <- sidebar_controls w ;;
  let only_high_risk := snd controls in
  selection <- property_selection w property_df ;;
  let property_id := fst selection in
  let property_row := snd selection in
  metrics <- key_metrics property_row room_df property_id ;;
  let rooms_inspected := fst metrics in
  let confidence := snd metrics in
  room_view <- room_breakdown room_df property_id only_high_risk ;;
  room_heatmap room_view ;;;
  explain_panel room_view ;;;
  inspection_coverage rooms_inspected ;;;
  plain_summary summary_df property_id property_row ;;;
  report property_id property_row rooms_inspected confidence ;;;
  severity_guide ;;;
  vision_findings image_df property_id ;;;
  bank_signal bank_df property_id ;;;
  risk_trend w property_df ;;;
  footer.

(** *** The whole script *)
Definition empty_guard (property_df : DataFrame) : M unit :=
  if df_empty property_df
  then st (warning "No inspection data available yet.") ;;; st_stop
  else ret tt.

Definition app (w : World) : M unit :=
  page_setup ;;;
  tables <- load_core_tables w ;;
  let '(property_df, room_df, summary_df, image_df, bank_df) := tables in
  empty_guard property_df ;;;
  dashboard w property_df room_df summary_df image_df bank_df.

End Script.

(** ** Specification-side definitions *)

(** ASCII upper-casing, to compare labels up to letter case. *)
Definition upper_ascii (a : ascii) : ascii :=
  let n := nat_of_ascii a in
  if (97 <=? n)%nat && (n <=? 122)%nat then ascii_of_nat (n - 32) else a.

Fixpoint upper (s : string) : string :=
  match s with
  | EmptyString => EmptyString
  | String a t => String (upper_ascii a) (upper t)
  end.

(** The spec's count: the room rows whose property id equals the given id. *)
Fixpoint count_rows_for (property_id : cell) (rs : list Row) : nat :=
  match rs with
  | [] => 0
  | r :: t =>
      (if cell_eqb (row_get "PROPERTY_ID" NaN r) property_id then 1 else 0)
      + count_rows_for property_id t
  end.

(** The spec's coverage ratio: min(n/5, 1.0). *)
Definition coverage_spec (n : nat) : Q := Qmin (Z.of_nat n # 5) 1.

(** The coverage ratio in IEEE doubles, as CPython computes it for a count
    below 2^53: the division of the two doubles, then [min]. *)
Module IEEE.
Import PrimFloat Uint63.
Local Set Warnings "-inexact-float".
Definition coverage_ratio_f64 (rooms_inspected : PrimInt63.int) : float :=
  let x := PrimFloat.div (PrimFloat.of_uint63 rooms_inspected) 5%float in
  if PrimFloat.ltb 1%float x then 1%float else x.
Definition sample_counts : list PrimInt63.int :=
  [0; 1; 2; 3; 4; 5; 6; 7; 100]%uint63.
Definition sample_ratios : list float :=
  [0; 0.2; 0.4; 0.6; 0.8; 1; 1; 1; 1]%float.
End IEEE.

(** The frame [load_df] hands back for a query, and the message it shows. *)
Definition loaded (session : string -> res DataFrame) (query : string) : DataFrame :=
  match session query with
  | Ok df => df
  | Raise _ => pd_DataFrame
  end.

Definition load_error (session : string -> res DataFrame) (query : string) : list widget :=
  match session query with
  | Ok _ => []
  | Raise e => [error (fstring ["Data load failed: "; exn_msg e])]
  end.

Definition load_errors (w : World) : list widget :=
  flat_map (load_error (session_sql w))
    [property_query; room_query; summary_query; image_query; bank_query].

Definition property_df_of (w : World) : DataFrame := loaded (session_sql w) property_query.
Definition room_df_of (w : World) : DataFrame := loaded (session_sql w) room_query.
Definition summary_df_of (w : World) : DataFrame := loaded (session_sql w) summary_query.
Definition image_df_of (w : World) : DataFrame := loaded (session_sql w) image_query.
Definition bank_df_of (w : World) : DataFrame := loaded (session_sql w) bank_query.

(** A run that does not end by [st.stop()], and one that ends in an
    uncaught exception. *)
Definition no_stop {A} (m : M A) : Prop := outcome m <> Stopped.
Definition fails {A} (m : M A) : Prop := exists e, outcome m = Uncaught e.

Fixpoint starts_with (p s : string) : bool :=
  match p with
  | EmptyString => true
  | String a p' =>
      match s with
      | String b s' => Ascii.eqb a b && starts_with p' s'
      | EmptyString => false
      end
  end.

(** What is rendered before the empty-table guard lets the page through:
    the page header, load failures and the guard's warning. *)
Definition before_dashboard (x : widget) : bool :=
  match x with
  | set_page_config _ _ | title _ | markdown _ | divider | warning _ => true
  | error body => starts_with "Data load failed: " body
  | _ => false
  end.

(** The files a run offers for download: [(data, file_name)]. *)
Definition downloads (tr : list widget) : list (string * string) :=
  flat_map (fun x => match x with
                     | download_button _ data file_name _ => [(data, file_name)]
                     | _ => []
                     end) tr.

Definition quiet {A} (m : M A) : Prop := downloads (trace m) = [].

(** The frames a run shows with [st.dataframe]. *)
Definition shown_frames (tr : list widget) : list DataFrame :=
  flat_map (fun x => match x with dataframe df => [df] | _ => [] end) tr.

(** The spec's room filter: the rooms of the property, and with the option
    on only those scoring at least 60. *)
Definition scores_60 (r : Row) : bool :=
  match cell_ge (row_get "ROOM_RISK_SCORE" NaN r) 60 with
  | Ok b => b
  | Raise _ => false
  end.

Definition displayed_room (property_id : cell) (only_high_risk : bool) (r : Row) : bool :=
  cell_eqb (row_get "PROPERTY_ID" NaN r) property_id
  && (if only_high_risk then scores_60 r else true).

(** ** Sample data *)

Module Sample.

#[local] Instance runtime : PythonRuntime := {
  repr_float := fun q => fstring [str_Z (Qnum q); "/"; str_Z (Zpos (Qden q))];
  int_of_str := fun _ => None;
  round64 := fun q => Float q
}.

Definition room (pid ty : string) (score : Z) : Row :=
  [("PROPERTY_ID", Str pid); ("ROOM_TYPE", Str ty); ("ROOM_RISK_SCORE", Int score)].

Definition property_table : DataFrame :=
  mkDF ["PROPERTY_ID"; "RISK_LEVEL"; "TOTAL_RISK"]
    [[("PROPERTY_ID", Str "P1"); ("RISK_LEVEL", Str "HIGH"); ("TOTAL_RISK", Int 85)];
     [("PROPERTY_ID", Str "P2"); ("RISK_LEVEL", Str "LOW"); ("TOTAL_RISK", Int 20)]].

Definition room_table : DataFrame :=
  mkDF ["PROPERTY_ID"; "ROOM_TYPE"; "ROOM_RISK_SCORE"]
    [room "P1" "Kitchen" 85; room "P1" "Bathroom" 65; room "P2" "Hall" 10;
     room "P1" "Bedroom" 29].

Definition summary_table : DataFrame :=
  mkDF ["PROPERTY_ID"; "SUMMARY_TEXT"]
    [[("PROPERTY_ID", Str "P1"); ("SUMMARY_TEXT", Str "Severe cracks in the kitchen wall.")]].

Definition image_table : DataFrame :=
  mkDF ["PROPERTY_ID"; "ROOM_TYPE"; "IMAGE_URL"; "DEFECT_LABEL"; "DEFECT_CONFIDENCE"]
    [[("PROPERTY_ID", Str "P1"); ("ROOM_TYPE", Str "Kitchen");
      ("IMAGE_URL", Str "https://example.org/kitchen.png");
      ("DEFECT_LABEL", Str "crack"); ("DEFECT_CONFIDENCE", Int 1)]].

Definition bank_table : DataFrame :=
  mkDF ["PROPERTY_ID"; "BANK_DECISION"]
    [[("PROPERTY_ID", Str "P1"); ("BANK_DECISION", Str "LOAN_REJECT")]].

Definition tables (bank : res DataFrame) (query : string) : res DataFrame :=
  if String.eqb query property_query then Ok property_table
  else if String.eqb query room_query then Ok room_table
  else if String.eqb query summary_query then Ok summary_table
  else if String.eqb query image_query then Ok image_table
  else if String.eqb query bank_query then bank
  else Raise (mkExn "SnowparkSQLException" "object does not exist").

Definition row_P1 : Row :=
  [("PROPERTY_ID", Str "P1"); ("RISK_LEVEL", Str "HIGH"); ("TOTAL_RISK", Int 85)].

(** The report of property P1, with its three rooms. *)
Definition report_P1 : string :=
  Eval vm_compute in
    match report_text (Str "P1") row_P1 3 "High" with
    | Ok text => text
    | Raise _ => ""
    end.

(** Property P1 selected, all five tables loaded. *)
Definition world : World := mkWorld (tables (Ok bank_table)) 0 false 0 1700000000000000000.

(** The same page another day, with other widget settings. *)
Definition world_later : World := mkWorld (tables (Ok bank_table)) 2 true 0 1800000000000000000.

(** Property P2 selected: it has no summary row. *)
Definition world_P2 : World := mkWorld (tables (Ok bank_table)) 0 false 1 1700000000000000000.

(** Every query fails. *)
Definition world_down : World :=
  mkWorld (fun _ => Raise (mkExn "SnowparkSQLException" "connection lost")) 0 false 0 0.

End Sample.

(** ** Definitions for the properties of the whole page *)

(** No two entries are the same key. *)
Fixpoint distinct_keys (l : list cell) : Prop :=
  match l with
  | [] => True
  | x :: t => (forall y, In y t -> same_key x y = false) /\ distinct_keys t
  end.

(** The rows of a table that belong to a property. *)
Definition for_property (property_id : cell) (r : Row) : bool :=
  cell_eqb (row_get "PROPERTY_ID" NaN r) property_id.

(** The id the property selectbox returns in a world. *)
Definition selected_id (w : World) : cell :=
  chosen (unique (map (row_get "PROPERTY_ID" NaN) (rows (property_df_of w))))
    (ui_property w).

Definition is_nan (c : cell) : bool :=
  match c with NaN => true | _ => false end.

(** A finite number, and a cell [>=] accepts. *)
Definition finite (c : cell) : bool :=
  match c with Int _ | Float _ => true | _ => false end.

Definition comparable (c : cell) : bool :=
  match c with Str _ => false | _ => true end.

Definition has_key (c : string) (r : Row) : bool :=
  match row_lookup c r with Some _ => true | None => false end.

(** A run that reaches its end. *)
Definition returns {A} (m : M A) : Prop := exists a, outcome m = Return a.

(** The same world with another choice of inspection focus. *)
Definition with_focus (i : nat) (w : World) : World :=
  mkWorld (session_sql w) i (ui_only_high_risk w) (ui_property w) (today w).

(** The columns a trace places content in, in order. *)
Definition column_indices (tr : list widget) : list nat :=
  flat_map (fun x => match x with in_column i _ => [i] | _ => [] end) tr.

(** The expanders of a trace. *)
Definition expanders (tr : list widget) : list (string * list widget) :=
  flat_map (fun x => match x with expander l b => [(l, b)] | _ => [] end) tr.

(** What a room row, an image row and a property row need for their part
    of the page to render. *)
Definition room_row_ok (r : Row) : bool :=
  has_key "ROOM_TYPE" r && has_key "ROOM_RISK_SCORE" r
  && comparable (row_get "ROOM_RISK_SCORE" NaN r).

Definition image_row_ok {py : PythonRuntime} (r : Row) : bool :=
  has_key "ROOM_TYPE" r && finite (times100 (row_get "DEFECT_CONFIDENCE" (Int 0) r)).

Definition property_row_ok (r : Row) : bool :=
  has_key "RISK_LEVEL" r && finite (row_get "TOTAL_RISK" NaN r).

(** Data on which the whole page renders: the tables carry the columns the
    script reads, the selected id is not missing, its property rows have a
    risk level and a finite total, its room rows a type and a score that is
    no string, its image rows a type and a confidence that converts, and
    the summary and bank tables have a row for it. *)
Definition page_ready {py : PythonRuntime} (w : World) : bool :=
  let pid := selected_id w in
  has_column (property_df_of w) "PROPERTY_ID"
  && has_column (property_df_of w) "TOTAL_RISK"
  && negb (length (rows (property_df_of w)) =? 0)%nat
  && negb (is_nan pid)
  && forallb property_row_ok (filter (for_property pid) (rows (property_df_of w)))
  && has_column (room_df_of w) "PROPERTY_ID"
  && has_column (room_df_of w) "ROOM_TYPE"
  && has_column (room_df_of w) "ROOM_RISK_SCORE"
  && forallb room_row_ok (filter (for_property pid) (rows (room_df_of w)))
  && has_column (summary_df_of w) "PROPERTY_ID"
  && has_column (summary_df_of w) "SUMMARY_TEXT"
  && existsb (for_property pid) (rows (summary_df_of w))
  && has_column (image_df_of w) "PROPERTY_ID"
  && forallb image_row_ok (filter (for_property pid) (rows (image_df_of w)))
  && has_column (bank_df_of w) "PROPERTY_ID"
  && existsb (for_property pid) (rows (bank_df_of w)).

(** A row of the heatmap table: room type, score and its label. *)
Definition heat_row (r : Row) : Row :=
  [("ROOM_TYPE", row_get "ROOM_TYPE" NaN r);
   ("ROOM_RISK_SCORE", row_get "ROOM_RISK_SCORE" NaN r);
   ("RISK_LEVEL", match heatmap_label (row_get "ROOM_RISK_SCORE" NaN r) with
                  | Ok label => Str label
                  | Raise _ => NaN
                  end)].

(** A run that offers at most one download, and one when it reaches its end. *)
Definition one_download {A} (m : M A) : Prop :=
  (length (downloads (trace m)) <= 1)%nat /\
  (returns m -> length (downloads (trace m)) = 1%nat).

(** A statement that shows no table. *)
Definition frameless {A} (m : M A) : Prop := shown_frames (trace m) = [].

(** A run whose first table, when it shows one, satisfies [P], and which
    shows one whenever it reaches its end. *)
Definition first_frame (P : DataFrame -> Prop) {A} (m : M A) : Prop :=
  (exists f later, P f /\ shown_frames (trace m) = f :: later) \/
  (shown_frames (trace m) = [] /\ forall a, outcome m <> Return a).

(** ** More sample data *)

Module Cases.

(** The bank view cannot be read. *)
Definition world_bank_down : World :=
  mkWorld (Sample.tables (Raise (mkExn "SnowparkSQLException" "view is invalid")))
    0 false 0 1700000000000000000.

(** The room table cannot be read; the other four tables load. *)
Definition room_down (query : string) : res DataFrame :=
  if String.eqb query room_query
  then Raise (mkExn "SnowparkSQLException" "table is locked")
  else Sample.tables (Ok Sample.bank_table) query.

Definition world_room_down : World :=
  mkWorld room_down 0 false 0 1700000000000000000.

End Cases.

(** * Properties *)

(** ** Risk classifier *)

Lemma Qle_bool_false (a b : Q) : b < a -> Qle_bool a b = false.
Proof.
  intros H. destruct (Qle_bool a b) eqn:E; [|reflexivity].
  apply Qle_bool_iff in E. lra.
Qed.

Lemma Qle_bool_true (a b : Q) : a <= b -> Qle_bool a b = true.
Proof. intros H. now apply Qle_bool_iff. Qed.

(** On a number the comparison is the one of its value. *)
Lemma cell_ge_num (c : cell) (s : Q) (k : Z) :
  cell_num c = Some s -> cell_ge c k = Ok (Qle_bool (inject_Z k) s).
Proof.
  destruct c as [t|z|q|b|]; simpl; intros H; inversion H; subst; clear H.
  - unfold Qle_bool; simpl. now rewrite !Z.mul_1_r.
  - reflexivity.
Qed.

(** C1. On every numeric score the classification loop returns the pair
    fixed by the thresholds 80, 60 and 30: HIGH from 80 up, MEDIUM on
    [60, 80), LOW on [30, 60), SAFE below 30, each with its explanation;
    the boundary scores 0, 29, 30, 59, 60, 79, 80, 100 get SAFE, SAFE, LOW,
    LOW, MEDIUM, MEDIUM, HIGH, HIGH, as integers and as doubles. *)
Theorem classify_thresholds :
  (forall (c : cell) (s : Q), cell_num c = Some s ->
     (80 <= s -> classify c = Ok ("HIGH", "Severe structural or safety defect")) /\
     (60 <= s < 80 -> classify c = Ok ("MEDIUM", "Electrical hazard or dampness detected")) /\
     (30 <= s < 60 -> classify c = Ok ("LOW", "Minor maintenance or finishing issue")) /\
     (s < 30 -> classify c = Ok ("SAFE", "No significant defects found"))) /\
  map (fun z => res_map fst (classify (Int z))) [0; 29; 30; 59; 60; 79; 80; 100]%Z
    = map Ok ["SAFE"; "SAFE"; "LOW"; "LOW"; "MEDIUM"; "MEDIUM"; "HIGH"; "HIGH"] /\
  map (fun z => res_map fst (classify (Float (inject_Z z)))) [0; 29; 30; 59; 60; 79; 80; 100]%Z
    = map Ok ["SAFE"; "SAFE"; "LOW"; "LOW"; "MEDIUM"; "MEDIUM"; "HIGH"; "HIGH"].
Proof.
  split; [|split; reflexivity].
  intros c s Hs. unfold classify.
  rewrite !(cell_ge_num c s) by exact Hs. simpl.
  repeat split.
  - intros H. rewrite Qle_bool_true by exact H. reflexivity.
  - intros [H1 H2].
    rewrite (Qle_bool_false (inject_Z 80)) by exact H2.
    rewrite Qle_bool_true by exact H1. reflexivity.
  - intros [H1 H2].
    rewrite (Qle_bool_false (inject_Z 80)) by (change (inject_Z 80) with 80; lra).
    rewrite (Qle_bool_false (inject_Z 60)) by exact H2.
    rewrite Qle_bool_true by exact H1. reflexivity.
  - intros H.
    rewrite (Qle_bool_false (inject_Z 80)) by (change (inject_Z 80) with 80; lra).
    rewrite (Qle_bool_false (inject_Z 60)) by (change (inject_Z 60) with 60; lra).
    rewrite (Qle_bool_false (inject_Z 30)) by exact H. reflexivity.
Qed.

Lemma classify_thresholds_witness :
  classify (Int 65) = Ok ("MEDIUM", "Electrical hazard or dampness detected") /\
  classify (Float (171 # 2)) = Ok ("HIGH", "Severe structural or safety defect").
Proof.
  split.
  - apply (proj1 classify_thresholds (Int 65) 65 eq_refl). split; lra.
  - apply (proj1 classify_thresholds (Float (171 # 2)) (171 # 2) eq_refl). lra.
Defined.

(** Off the finite numbers: NaN compares false with every threshold and is
    SAFE, the infinities fall on their side of them, a string score raises. *)
Lemma classify_not_a_number :
  classify NaN = Ok ("SAFE", "No significant defects found") /\
  classify (Inf false) = Ok ("HIGH", "Severe structural or safety defect") /\
  classify (Inf true) = Ok ("SAFE", "No significant defects found") /\
  forall t, classify (Str t) = Raise TypeError.
Proof. repeat split. Qed.

(** C9. The heatmap lambda and the explainable-AI loop classify alike: on
    every score the heatmap label, upper-cased, is the severity the loop
    assigns (and both raise on the same inputs). *)
Theorem heatmap_label_matches_severity :
  forall c : cell, res_map upper (heatmap_label c) = res_map fst (classify c).
Proof.
  intros [t|z|q|[|]|]; unfold heatmap_label, classify, cell_ge, res_map, res_bind.
  - reflexivity.
  - destruct (80 <=? z)%Z; [reflexivity|].
    destruct (60 <=? z)%Z; [reflexivity|].
    destruct (30 <=? z)%Z; reflexivity.
  - destruct (Qle_bool (inject_Z 80) q); [reflexivity|].
    destruct (Qle_bool (inject_Z 60) q); [reflexivity|].
    destruct (Qle_bool (inject_Z 30) q); reflexivity.
  - reflexivity.
  - reflexivity.
  - reflexivity.
Qed.

(** ** Aggregator *)

Lemma select_map_filter {A} (f : A -> bool) (l : list A) :
  select l (map f l) = filter f l.
Proof.
  induction l as [|a l IH]; simpl; [reflexivity|].
  rewrite IH. reflexivity.
Qed.

Lemma select_column (c : string) (p : cell -> bool) (rs : list Row) :
  select rs (map p (map (row_get c NaN) rs)) = filter (fun r => p (row_get c NaN r)) rs.
Proof. rewrite map_map. apply (select_map_filter (fun r => p (row_get c NaN r))). Qed.

(** The rows [df[df[c] == v]] keeps. *)
Lemma df_where_eq_rows (df : DataFrame) (c : string) (v : cell) :
  has_column df c = true ->
  df_where_eq df c v =
  Ok (mkDF (columns df) (filter (fun r => cell_eqb (row_get c NaN r) v) (rows df))).
Proof.
  intros H. unfold df_where_eq, df_getitem, df_mask. rewrite H. simpl.
  now rewrite (select_column c (fun x => cell_eqb x v)).
Qed.

Lemma df_where_eq_no_column (df : DataFrame) (c : string) (v : cell) :
  has_column df c = false -> df_where_eq df c v = Raise (KeyError c).
Proof. intros H. unfold df_where_eq, df_getitem. now rewrite H. Qed.

Lemma count_rows_for_filter (property_id : cell) (rs : list Row) :
  count_rows_for property_id rs =
  length (filter (fun r => cell_eqb (row_get "PROPERTY_ID" NaN r) property_id) rs).
Proof.
  induction rs as [|r rs IH]; simpl; [reflexivity|].
  rewrite IH. destruct (cell_eqb _ _); reflexivity.
Qed.

Lemma rooms_inspected_count (room_df : DataFrame) (property_id : cell) :
  has_column room_df "PROPERTY_ID" = true ->
  rooms_inspected room_df property_id = Ok (count_rows_for property_id (rows room_df)).
Proof.
  intros H. unfold rooms_inspected. rewrite df_where_eq_rows by exact H.
  simpl. unfold shape0. simpl. now rewrite count_rows_for_filter.
Qed.

(** C2. On a room table (one with its PROPERTY_ID column) [rooms_inspected]
    is the number of rows whose property id equals the given id, and the
    confidence label is "High" exactly when that count is at least 3,
    "Medium" otherwise. *)
Theorem rooms_inspected_counts (room_df : DataFrame) (property_id : cell) :
  has_column room_df "PROPERTY_ID" = true ->
  rooms_inspected room_df property_id = Ok (count_rows_for property_id (rows room_df)) /\
  forall n, rooms_inspected room_df property_id = Ok n ->
    (confidence n = "High" <-> (3 <= n)%nat) /\
    (confidence n = "Medium" <-> (n < 3)%nat).
Proof.
  intros H. split.
  - apply rooms_inspected_count, H.
  - intros n _. unfold confidence.
    destruct (3 <=? n)%nat eqn:E.
    + apply Nat.leb_le in E. repeat split; intros; try lia; try reflexivity; discriminate.
    + apply Nat.leb_gt in E. repeat split; intros; try lia; try reflexivity; discriminate.
Qed.

Lemma rooms_inspected_counts_witness :
  rooms_inspected Sample.room_table (Str "P1") = Ok 3%nat /\
  confidence 3 = "High" /\
  rooms_inspected Sample.room_table (Str "P2") = Ok 1%nat /\
  confidence 1 = "Medium".
Proof.
  destruct (rooms_inspected_counts Sample.room_table (Str "P1") eq_refl) as [H1 C1].
  destruct (rooms_inspected_counts Sample.room_table (Str "P2") eq_refl) as [H2 C2].
  split; [exact H1|]. split; [apply (proj1 (C1 3%nat H1)); lia|].
  split; [exact H2|]. apply (proj2 (C2 1%nat H2)). lia.
Defined.

(** Without the column (the empty frame [load_df] returns for a failed
    query) the count raises. *)
Lemma rooms_inspected_no_column (room_df : DataFrame) (property_id : cell) :
  has_column room_df "PROPERTY_ID" = false ->
  rooms_inspected room_df property_id = Raise (KeyError "PROPERTY_ID").
Proof.
  intros H. unfold rooms_inspected. now rewrite df_where_eq_no_column by exact H.
Qed.

(** C3. For every room count the coverage ratio is min(n/5, 1.0): it is 1
    from five rooms on and n/5 below, 1.0 at 7 and 0.4 at 2. *)
Theorem coverage_ratio_clamped (n : nat) :
  coverage_ratio n == coverage_spec n /\
  ((5 <= n)%nat -> coverage_ratio n == 1) /\
  ((n < 5)%nat -> coverage_ratio n == Z.of_nat n # 5) /\
  coverage_ratio 7 == 1 /\
  coverage_ratio 2 == 0.4.
Proof.
  assert (Hn : (5 <= n)%nat -> coverage_ratio n == 1).
  { intros H. unfold coverage_ratio, py_min.
    destruct (Qle_bool (Z.of_nat n # 5) 1) eqn:E; [|reflexivity].
    apply Qle_bool_iff in E. unfold Qle in E. simpl in E.
    unfold Qeq. simpl. lia. }
  assert (Hl : (n < 5)%nat -> coverage_ratio n == Z.of_nat n # 5).
  { intros H. unfold coverage_ratio, py_min.
    rewrite Qle_bool_true; [reflexivity|]. unfold Qle. simpl. lia. }
  repeat split; try assumption; try reflexivity.
  unfold coverage_spec.
  destruct (le_lt_dec 5 n) as [H|H].
  - rewrite (Hn H). symmetry. apply Q.min_r. unfold Qle. simpl. lia.
  - rewrite (Hl H). symmetry. apply Q.min_l. unfold Qle. simpl. lia.
Qed.

Lemma coverage_ratio_clamped_witness :
  coverage_ratio 9 == 1 /\ coverage_ratio 3 == 3 # 5.
Proof.
  split.
  - apply (proj1 (proj2 (coverage_ratio_clamped 9))). lia.
  - apply (proj1 (proj2 (proj2 (coverage_ratio_clamped 3)))). lia.
Defined.

(** The same samples in IEEE doubles: 0.0, 0.2, 0.4, 0.6, 0.8 below five
    rooms, exactly 1.0 from five on. *)
Lemma coverage_ratio_f64_samples :
  map IEEE.coverage_ratio_f64 IEEE.sample_counts = IEEE.sample_ratios.
Proof. reflexivity. Qed.

(** ** Runs of the script *)

Lemma trace_bind {A B} (m : M A) (f : A -> M B) :
  trace (bind m f) =
  trace m ++ match outcome m with Return a => trace (f a) | _ => [] end.
Proof.
  destruct m as [tr [a|e|]]; simpl; try now rewrite app_nil_r.
  destruct (f a); reflexivity.
Qed.

Lemma outcome_bind {A B} (m : M A) (f : A -> M B) :
  outcome (bind m f) =
  match outcome m with
  | Return a => outcome (f a)
  | Uncaught e => Uncaught e
  | Stopped => Stopped
  end.
Proof.
  destruct m as [tr [a|e|]]; simpl; try reflexivity.
  destruct (f a); reflexivity.
Qed.

Lemma run_eta {A} (m : M A) : m = (trace m, outcome m).
Proof. now destruct m. Qed.

Lemma bind_returned {A B} (m : M A) (f : A -> M B) (tr : list widget) (a : A) :
  m = (tr, Return a) -> bind m f = (tr ++ trace (f a), outcome (f a)).
Proof. intros ->. simpl. now destruct (f a). Qed.

(** ** Data loader *)

Lemma load_df_loaded (session : string -> res DataFrame) (query : string) :
  load_df session query = (load_error session query, Return (loaded session query)).
Proof.
  unfold load_df, load_error, loaded, try_except, eval.
  destruct (session query); reflexivity.
Qed.

(** C5. When the query raises, [load_df] catches the exception, shows
    "Data load failed: ..." and returns the empty frame; when it succeeds,
    the frame comes back unchanged and nothing is shown.  Either way the
    loader returns. *)
Theorem load_df_catches (session : string -> res DataFrame) (query : string) :
  (forall e, session query = Raise e ->
     load_df session query =
     ([error (fstring ["Data load failed: "; exn_msg e])], Return pd_DataFrame)) /\
  (forall df, session query = Ok df -> load_df session query = ([], Return df)) /\
  (exists df, outcome (load_df session query) = Return df) /\
  df_empty pd_DataFrame = true.
Proof.
  rewrite load_df_loaded. unfold load_error, loaded.
  repeat split.
  - intros e ->. reflexivity.
  - intros df ->. reflexivity.
  - eexists. reflexivity.
Qed.

Lemma load_df_catches_witness :
  load_df (session_sql Sample.world_down) room_query =
  ([error "Data load failed: connection lost"], Return pd_DataFrame) /\
  load_df (session_sql Sample.world) room_query = ([], Return Sample.room_table).
Proof.
  split.
  - apply (proj1 (load_df_catches (session_sql Sample.world_down) room_query)
             (mkExn "SnowparkSQLException" "connection lost")).
    reflexivity.
  - apply (proj1 (proj2 (load_df_catches (session_sql Sample.world) room_query))).
    reflexivity.
Defined.

Lemma load_core_tables_loaded {py : PythonRuntime} (w : World) :
  load_core_tables w =
  (load_errors w,
   Return (property_df_of w, room_df_of w, summary_df_of w, image_df_of w, bank_df_of w)).
Proof.
  unfold load_core_tables. rewrite !load_df_loaded. unfold bind, ret, load_errors.
  simpl. rewrite !app_nil_r. reflexivity.
Qed.

(** The script up to the guard, and what follows it. *)
Lemma app_unfold {py : PythonRuntime} (w : World) :
  app w =
  let rest := empty_guard (property_df_of w) ;;;
              dashboard w (property_df_of w) (room_df_of w) (summary_df_of w)
                (image_df_of w) (bank_df_of w) in
  (trace page_setup ++ load_errors w ++ trace rest, outcome rest).
Proof.
  unfold app. rewrite load_core_tables_loaded.
  rewrite (bind_returned page_setup _ (trace page_setup) tt) by reflexivity.
  rewrite trace_bind, outcome_bind. cbn [outcome trace fst snd].
  reflexivity.
Qed.

Lemma load_errors_before_dashboard (w : World) :
  forallb before_dashboard (load_errors w) = true.
Proof.
  unfold load_errors, load_error. simpl.
  repeat match goal with
         | |- context [session_sql w ?q] => destruct (session_sql w q)
         end; reflexivity.
Qed.

(** ** Empty property table *)

(** C6. When the property query yields an empty frame (it failed, or it
    returned no row or no column) the run shows the header, the load
    failures and the warning, and stops there: nothing of the page below
    the guard is rendered. *)
Theorem empty_property_table_halts {py : PythonRuntime} (w : World) :
  df_empty (property_df_of w) = true ->
  app w =
  (trace page_setup ++ load_errors w ++ [warning "No inspection data available yet."],
   Stopped) /\
  forallb before_dashboard (trace (app w)) = true.
Proof.
  intros H.
  assert (E : app w =
    (trace page_setup ++ load_errors w ++ [warning "No inspection data available yet."],
     Stopped)).
  { rewrite app_unfold. unfold empty_guard. rewrite H. reflexivity. }
  split; [exact E|].
  rewrite E. unfold trace at 1. cbn [fst].
  rewrite !forallb_app, load_errors_before_dashboard. reflexivity.
Qed.

Lemma empty_property_table_halts_witness :
  outcome (app (py := Sample.runtime) Sample.world_down) = Stopped /\
  length (trace (app (py := Sample.runtime) Sample.world_down)) = 10%nat.
Proof.
  pose proof (empty_property_table_halts (py := Sample.runtime) Sample.world_down eq_refl)
    as [E _].
  rewrite E. split; reflexivity.
Defined.

(** ** Runs that do not stop, runs that fail *)

Lemma no_stop_ret {A} (a : A) : no_stop (ret a).
Proof. discriminate. Qed.

Lemma no_stop_st (x : widget) : no_stop (st x).
Proof. discriminate. Qed.

Lemma no_stop_eval {A} (r : res A) : no_stop (eval r).
Proof. destruct r; discriminate. Qed.

Lemma no_stop_bind {A B} (m : M A) (f : A -> M B) :
  no_stop m -> (forall a, no_stop (f a)) -> no_stop (bind m f).
Proof.
  unfold no_stop. intros Hm Hf. rewrite outcome_bind.
  destruct (outcome m); [apply Hf|discriminate|now contradiction Hm].
Qed.

Lemma no_stop_within {A} (c : list widget -> widget) (m : M A) :
  no_stop m -> no_stop (within c m).
Proof. unfold no_stop, within. now destruct m. Qed.

Lemma no_stop_for_each {A} (l : list A) (body : A -> M unit) :
  (forall a, no_stop (body a)) -> no_stop (for_each l body).
Proof.
  intros H. induction l as [|a l IH]; simpl.
  - apply no_stop_ret.
  - apply no_stop_bind; [apply H|intros _; exact IH].
Qed.

Lemma no_stop_for_enumerate {A} (l : list A) (body : nat -> A -> M unit) (i : nat) :
  (forall j a, no_stop (body j a)) -> no_stop (for_enumerate i l body).
Proof.
  intros H. revert i. induction l as [|a l IH]; intros i; simpl.
  - apply no_stop_ret.
  - apply no_stop_bind; [apply H|intros _; apply IH].
Qed.

(** Splits a statement into its calls; none of them is [st.stop()]. *)
Ltac no_stop_step :=
  first
    [ apply no_stop_st
    | apply no_stop_eval
    | apply no_stop_ret
    | apply no_stop_bind; [|intros ?]
    | apply no_stop_within
    | apply no_stop_for_each; intros ?
    | apply no_stop_for_enumerate; intros ? ?
    | match goal with |- no_stop (if ?b then _ else _) => destruct b end ].

Ltac no_stop_tac := cbv zeta; repeat (no_stop_step; cbv zeta).

Lemma no_stop_sidebar_controls (w : World) : no_stop (sidebar_controls w).
Proof. unfold sidebar_controls. no_stop_tac. Qed.

Lemma no_stop_property_selection (w : World) (df : DataFrame) :
  no_stop (property_selection w df).
Proof. unfold property_selection. no_stop_tac. Qed.

Lemma no_stop_key_metrics {py : PythonRuntime} (row : Row) (df : DataFrame) (pid : cell) :
  no_stop (key_metrics row df pid).
Proof. unfold key_metrics. no_stop_tac. Qed.

Lemma no_stop_room_breakdown (df : DataFrame) (pid : cell) (b : bool) :
  no_stop (room_breakdown df pid b).
Proof. unfold room_breakdown. no_stop_tac. Qed.

Lemma no_stop_room_heatmap (view : DataFrame) : no_stop (room_heatmap view).
Proof. unfold room_heatmap. no_stop_tac. Qed.

Lemma no_stop_explain_panel {py : PythonRuntime} (view : DataFrame) :
  no_stop (explain_panel view).
Proof. unfold explain_panel, explain_room. no_stop_tac. Qed.

Lemma no_stop_inspection_coverage (n : nat) : no_stop (inspection_coverage n).
Proof. unfold inspection_coverage. no_stop_tac. Qed.

Lemma no_stop_plain_summary {py : PythonRuntime} (df : DataFrame) (pid : cell) (row : Row) :
  no_stop (plain_summary df pid row).
Proof. unfold plain_summary. no_stop_tac. Qed.

Lemma no_stop_report {py : PythonRuntime} (pid : cell) (row : Row) (n : nat) (c : string) :
  no_stop (report pid row n c).
Proof. unfold report. no_stop_tac. Qed.

Lemma no_stop_severity_guide : no_stop severity_guide.
Proof. unfold severity_guide. no_stop_tac. Qed.

Lemma no_stop_vision_findings {py : PythonRuntime} (df : DataFrame) (pid : cell) :
  no_stop (vision_findings df pid).
Proof. unfold vision_findings, show_image. no_stop_tac. Qed.

Lemma fails_bind_l {A B} (m : M A) (f : A -> M B) : fails m -> fails (bind m f).
Proof. intros [e H]. exists e. rewrite outcome_bind, H. reflexivity. Qed.

Lemma fails_bind_r {A B} (m : M A) (f : A -> M B) :
  no_stop m -> (forall a, outcome m = Return a -> fails (f a)) -> fails (bind m f).
Proof.
  unfold no_stop, fails. intros Hm Hf. rewrite outcome_bind.
  destruct (outcome m) as [a|e|].
  - now apply Hf.
  - now exists e.
  - contradiction.
Qed.

Lemma fails_eval {A} (r : res A) (e : exn) : r = Raise e -> fails (eval r).
Proof. intros ->. now exists e. Qed.

(** ** Secondary tables without a row for the property *)

Lemma no_rows_for (property_id : cell) (rs : list Row) :
  count_rows_for property_id rs = 0%nat ->
  filter (fun r => cell_eqb (row_get "PROPERTY_ID" NaN r) property_id) rs = [].
Proof.
  rewrite count_rows_for_filter. apply length_zero_iff_nil.
Qed.

(** What line 150 raises: [IndexError] from [.iloc[0]] on a summary table
    with its columns, [KeyError] on one without. *)
Lemma summary_lookup_missing (summary_df : DataFrame) (property_id : cell) :
  count_rows_for property_id (rows summary_df) = 0%nat ->
  summary_lookup summary_df property_id =
  Raise (if has_column summary_df "PROPERTY_ID"
         then if has_column summary_df "SUMMARY_TEXT" then IndexError
              else KeyError "SUMMARY_TEXT"
         else KeyError "PROPERTY_ID").
Proof.
  intros H. unfold summary_lookup.
  destruct (has_column summary_df "PROPERTY_ID") eqn:Hc.
  - rewrite df_where_eq_rows by exact Hc. rewrite (no_rows_for _ _ H).
    unfold res_bind, df_getitem, has_column. cbn [columns rows].
    fold (has_column summary_df "SUMMARY_TEXT").
    destruct (has_column summary_df "SUMMARY_TEXT"); reflexivity.
  - rewrite df_where_eq_no_column by exact Hc. reflexivity.
Qed.

(** What line 221 raises. *)
Lemma bank_lookup_missing (bank_df : DataFrame) (property_id : cell) :
  count_rows_for property_id (rows bank_df) = 0%nat ->
  bank_lookup bank_df property_id =
  Raise (if has_column bank_df "PROPERTY_ID" then IndexError
         else KeyError "PROPERTY_ID").
Proof.
  intros H. unfold bank_lookup.
  destruct (has_column bank_df "PROPERTY_ID") eqn:Hc.
  - rewrite df_where_eq_rows by exact Hc. rewrite (no_rows_for _ _ H). reflexivity.
  - rewrite df_where_eq_no_column by exact Hc. reflexivity.
Qed.

(** The property the script selects, read off a run of the selection. *)
Lemma property_selection_returned (w : World) (property_df : DataFrame)
    (property_id : cell) (property_row : Row) :
  outcome (property_selection w property_df) = Return (property_id, property_row) ->
  has_column property_df "PROPERTY_ID" = true /\
  property_id =
    chosen (unique (map (row_get "PROPERTY_ID" NaN) (rows property_df))) (ui_property w) /\
  iloc0 (filter (fun r => cell_eqb (row_get "PROPERTY_ID" NaN r) property_id)
           (rows property_df)) = Ok property_row.
Proof.
  unfold property_selection. rewrite !outcome_bind. cbn [st outcome snd].
  unfold df_getitem.
  destruct (has_column property_df "PROPERTY_ID") eqn:Hc; cbn [eval ret outcome snd];
    [|discriminate].
  rewrite !outcome_bind. cbn [st outcome snd].
  rewrite df_where_eq_rows by exact Hc. cbn [eval ret outcome snd rows].
  rewrite !outcome_bind.
  match goal with |- context [iloc0 ?l] => destruct (iloc0 l) as [r|e] eqn:Hr end;
    cbn [eval ret outcome snd]; [|discriminate].
  intros H. inversion H; subst. rewrite Hr. auto.
Qed.

Lemma selected_table_not_empty (w : World) (property_df : DataFrame)
    (property_id : cell) (property_row : Row) :
  outcome (property_selection w property_df) = Return (property_id, property_row) ->
  df_empty property_df = false.
Proof.
  intros H. apply property_selection_returned in H as (Hc & _ & Hr).
  unfold df_empty, has_column in *.
  destruct (columns property_df); [discriminate|].
  destruct (rows property_df); [discriminate|]. reflexivity.
Qed.

(** C7. Once a property is selected, a summary table or a bank table
    without a row for it makes the run end in an uncaught exception: the
    lookup of the first matching row raises ([IndexError] from [.iloc[0]],
    or [KeyError] when the table lacks the column) and nothing handles it. *)
Theorem missing_secondary_row_fails {py : PythonRuntime} (w : World)
    (property_id : cell) (property_row : Row) :
  outcome (property_selection w (property_df_of w)) = Return (property_id, property_row) ->
  count_rows_for property_id (rows (summary_df_of w)) = 0%nat \/
  count_rows_for property_id (rows (bank_df_of w)) = 0%nat ->
  fails (app w) /\
  (count_rows_for property_id (rows (summary_df_of w)) = 0%nat ->
   exists e, summary_lookup (summary_df_of w) property_id = Raise e /\
     (has_column (summary_df_of w) "PROPERTY_ID" = true ->
      has_column (summary_df_of w) "SUMMARY_TEXT" = true -> e = IndexError)) /\
  (count_rows_for property_id (rows (bank_df_of w)) = 0%nat ->
   exists e, bank_lookup (bank_df_of w) property_id = Raise e /\
     (has_column (bank_df_of w) "PROPERTY_ID" = true -> e = IndexError)).
Proof.
  intros Hsel Hmiss. split; [|split].
  - unfold fails. rewrite app_unfold. cbv zeta. cbn [outcome snd].
    change (fails (empty_guard (property_df_of w) ;;;
                   dashboard w (property_df_of w) (room_df_of w) (summary_df_of w)
                     (image_df_of w) (bank_df_of w))).
    unfold empty_guard. rewrite (selected_table_not_empty _ _ _ _ Hsel).
    apply fails_bind_r; [apply no_stop_ret|intros _ _].
    unfold dashboard.
    apply fails_bind_r; [apply no_stop_sidebar_controls|intros controls _].
    apply fails_bind_r; [apply no_stop_property_selection|intros sel Hs].
    rewrite Hsel in Hs. inversion Hs; subst sel. cbn [fst snd].
    apply fails_bind_r; [apply no_stop_key_metrics|intros metrics _].
    apply fails_bind_r; [apply no_stop_room_breakdown|intros view _].
    apply fails_bind_r; [apply no_stop_room_heatmap|intros _ _].
    apply fails_bind_r; [apply no_stop_explain_panel|intros _ _].
    apply fails_bind_r; [apply no_stop_inspection_coverage|intros _ _].
    destruct Hmiss as [Hs0|Hb0].
    + apply fails_bind_l. unfold plain_summary.
      apply fails_bind_r; [apply no_stop_st|intros _ _].
      apply fails_bind_l. eapply fails_eval. apply summary_lookup_missing, Hs0.
    + apply fails_bind_r; [apply no_stop_plain_summary|intros _ _].
      apply fails_bind_r; [apply no_stop_report|intros _ _].
      apply fails_bind_r; [apply no_stop_severity_guide|intros _ _].
      apply fails_bind_r; [apply no_stop_vision_findings|intros _ _].
      apply fails_bind_l. unfold bank_signal.
      apply fails_bind_r; [apply no_stop_st|intros _ _].
      apply fails_bind_l. eapply fails_eval. apply bank_lookup_missing, Hb0.
  - intros H0. eexists. split; [apply summary_lookup_missing, H0|].
    intros -> ->. reflexivity.
  - intros H0. eexists. split; [apply bank_lookup_missing, H0|].
    intros ->. reflexivity.
Qed.

Lemma missing_secondary_row_fails_witness :
  fails (app (py := Sample.runtime) Sample.world_P2) /\
  summary_lookup Sample.summary_table (Str "P2") = Raise IndexError.
Proof.
  pose proof (missing_secondary_row_fails (py := Sample.runtime) Sample.world_P2 (Str "P2")
                [("PROPERTY_ID", Str "P2"); ("RISK_LEVEL", Str "LOW"); ("TOTAL_RISK", Int 20)]
                eq_refl (or_introl eq_refl)) as (Hf & Hs & _).
  split; [exact Hf|].
  destruct (Hs eq_refl) as (e & He & Hi).
  rewrite (Hi eq_refl eq_refl) in He. exact He.
Defined.

(** ** A property without rooms *)

Lemma room_view_no_rows (room_df : DataFrame) (property_id : cell) (only_high_risk : bool) :
  has_column room_df "PROPERTY_ID" = true ->
  has_column room_df "ROOM_RISK_SCORE" = true ->
  count_rows_for property_id (rows room_df) = 0%nat ->
  room_view room_df property_id only_high_risk = Ok (mkDF (columns room_df) []).
Proof.
  intros Hp Hs H0. unfold room_view.
  rewrite df_where_eq_rows by exact Hp. rewrite (no_rows_for _ _ H0).
  destruct only_high_risk; [|reflexivity].
  unfold res_bind, df_where_ge, df_getitem, has_column. cbn [columns rows].
  fold (has_column room_df "ROOM_RISK_SCORE"). rewrite Hs. reflexivity.
Qed.

Lemma has_column_setitem (df : DataFrame) (c : string) (values : list cell) (c' : string) :
  has_column (df_setitem df c values) c' = has_column df c' || String.eqb c' c.
Proof.
  unfold df_setitem, has_column at 1. cbn [columns].
  destruct (has_column df c) eqn:Hc.
  - fold (has_column df c').
    destruct (String.eqb c' c) eqn:E; [|now rewrite orb_false_r].
    apply String.eqb_eq in E. subst. now rewrite Hc.
  - rewrite existsb_app. fold (has_column df c'). simpl. now rewrite orb_false_r.
Qed.

(** C4, as amended.  For a property with no row in a room table that
    carries its PROPERTY_ID column the aggregator runs through: the count is
    0, the confidence is "Medium", the coverage ratio is 0; when the table
    also carries ROOM_TYPE and ROOM_RISK_SCORE the room sections of the page
    (breakdown, heatmap, explanations, coverage) render without raising. *)
Theorem empty_room_set {py : PythonRuntime} (room_df : DataFrame) (property_id : cell)
    (only_high_risk : bool) :
  has_column room_df "PROPERTY_ID" = true ->
  count_rows_for property_id (rows room_df) = 0%nat ->
  rooms_inspected room_df property_id = Ok 0%nat /\
  confidence 0 = "Medium" /\
  coverage_ratio 0 == 0 /\
  (has_column room_df "ROOM_TYPE" = true ->
   has_column room_df "ROOM_RISK_SCORE" = true ->
   exists view,
     rows view = [] /\
     outcome (room_breakdown room_df property_id only_high_risk) = Return view /\
     outcome (room_heatmap view) = Return tt /\
     outcome (explain_panel view) = Return tt /\
     outcome (inspection_coverage 0) = Return tt /\
     In (progress (coverage_ratio 0)) (trace (inspection_coverage 0))).
Proof.
  intros Hp H0. repeat split.
  - rewrite (rooms_inspected_count room_df property_id Hp). now rewrite H0.
  - intros Ht Hs. exists (mkDF (columns room_df) []).
    split; [reflexivity|]. split; [|split; [|split; [|split]]].
    + unfold room_breakdown. rewrite !outcome_bind. cbn [st outcome snd].
      rewrite (room_view_no_rows _ _ _ Hp Hs H0). cbn [eval ret outcome snd].
      rewrite !outcome_bind. cbn [st outcome snd].
      unfold df_indexed, has_column. cbn [columns rows].
      fold (has_column room_df "ROOM_TYPE"). fold (has_column room_df "ROOM_RISK_SCORE").
      rewrite Ht, Hs. reflexivity.
    + unfold room_heatmap. rewrite !outcome_bind. cbn [st outcome snd].
      unfold df_getitem at 1, has_column at 1. cbn [columns rows].
      fold (has_column room_df "ROOM_RISK_SCORE"). rewrite Hs.
      cbn [map eval ret outcome snd res_mapM].
      rewrite !outcome_bind. cbn [eval ret outcome snd map].
      unfold df_project.
      cbn [filter]. rewrite !has_column_setitem.
      unfold has_column in *. cbn [columns] in *.
      rewrite Ht, Hs. cbn [orb negb]. rewrite String.eqb_refl, orb_true_r.
      reflexivity.
    + reflexivity.
    + reflexivity.
    + simpl. auto.
Qed.

Lemma empty_room_set_witness :
  rooms_inspected Sample.room_table (Str "P9") = Ok 0%nat /\
  exists view,
    rows view = [] /\
    outcome (room_breakdown Sample.room_table (Str "P9") true) = Return view.
Proof.
  destruct (empty_room_set (py := Sample.runtime) Sample.room_table (Str "P9") true
              eq_refl eq_refl) as (Hn & _ & _ & Hv).
  split; [exact Hn|].
  destruct (Hv eq_refl eq_refl) as (view & Hr & Hb & _).
  exists view. split; assumption.
Defined.

(** C4 as first stated fails on the frame [load_df] returns for a failed
    room query: it has no row for any property, the page is past the guard,
    and the count of line 70 raises KeyError, which ends the run. *)
Lemma empty_room_set_counterexample :
  load_df (session_sql Cases.world_room_down) room_query
  = ([error "Data load failed: table is locked"], Return pd_DataFrame) /\
  rows (room_df_of Cases.world_room_down) = [] /\
  count_rows_for (Str "P1") (rows (room_df_of Cases.world_room_down)) = 0%nat /\
  df_empty (property_df_of Cases.world_room_down) = false /\
  rooms_inspected (room_df_of Cases.world_room_down) (Str "P1")
  = Raise (KeyError "PROPERTY_ID") /\
  outcome (app (py := Sample.runtime) Cases.world_room_down)
  = Uncaught (KeyError "PROPERTY_ID") /\
  ~ (forall room_df property_id,
       count_rows_for property_id (rows room_df) = 0%nat ->
       rooms_inspected room_df property_id = Ok 0%nat).
Proof.
  repeat (split; [vm_compute; reflexivity|]).
  intros H. specialize (H pd_DataFrame (Str "P1") eq_refl). discriminate.
Qed.

(** ** The high-risk filter *)

Lemma res_mapM_ok {A B} (f : A -> res B) (d : B) (l : list A) (bs : list B) :
  res_mapM f l = Ok bs ->
  bs = map (fun a => match f a with Ok b => b | Raise _ => d end) l.
Proof.
  revert bs. induction l as [|a l IH]; simpl; intros bs H.
  - now inversion H.
  - destruct (f a) as [b|e]; simpl in H; [|discriminate].
    destruct (res_mapM f l) as [bs'|e]; simpl in H; [|discriminate].
    inversion H; subst. now rewrite <- (IH bs' eq_refl).
Qed.

Lemma res_mapM_total {A B} (f : A -> res B) (l : list A) :
  (forall a, In a l -> exists b, f a = Ok b) -> exists bs, res_mapM f l = Ok bs.
Proof.
  induction l as [|a l IH]; simpl; intros H.
  - now eexists.
  - destruct (H a (or_introl eq_refl)) as [b Hb]. rewrite Hb.
    destruct IH as [bs Hbs]; [intros; apply H; now right|].
    rewrite Hbs. now eexists.
Qed.

Lemma filter_twice {A} (f g : A -> bool) (l : list A) :
  filter g (filter f l) = filter (fun a => f a && g a) l.
Proof.
  induction l as [|a l IH]; simpl; [reflexivity|].
  destruct (f a); simpl; [|exact IH].
  destruct (g a); now rewrite IH.
Qed.

(** The rows [df[df[c] >= k]] keeps, when the comparison does not raise. *)
Lemma df_where_ge_rows (df view : DataFrame) (c : string) (k : Z) :
  df_where_ge df c k = Ok view ->
  view = mkDF (columns df)
           (filter (fun r => match cell_ge (row_get c NaN r) k with
                             | Ok b => b
                             | Raise _ => false
                             end) (rows df)).
Proof.
  unfold df_where_ge, df_getitem.
  destruct (has_column df c); simpl; [|discriminate].
  destruct (res_mapM _ _) as [mask|e] eqn:Hm; simpl; [|discriminate].
  intros H. inversion H; subst. unfold df_mask. f_equal.
  rewrite (res_mapM_ok _ false _ _ Hm).
  apply (select_column c (fun x => match cell_ge x k with Ok b => b | Raise _ => false end)).
Qed.

(** The filter returns whenever the table has its two columns and no
    matching row carries a string for a score. *)
Lemma room_view_total (room_df : DataFrame) (property_id : cell) (only_high_risk : bool) :
  has_column room_df "PROPERTY_ID" = true ->
  has_column room_df "ROOM_RISK_SCORE" = true ->
  (forall r t, In r (rows room_df) -> row_get "ROOM_RISK_SCORE" NaN r <> Str t) ->
  exists view, room_view room_df property_id only_high_risk = Ok view.
Proof.
  intros Hp Hs Hnum. unfold room_view. rewrite df_where_eq_rows by exact Hp.
  cbn [res_bind]. destruct only_high_risk; [|now eexists].
  unfold df_where_ge, df_getitem, has_column. cbn [columns rows].
  fold (has_column room_df "ROOM_RISK_SCORE"). rewrite Hs. cbn [res_bind].
  destruct (res_mapM_total (fun x => cell_ge x 60)
              (map (row_get "ROOM_RISK_SCORE" NaN)
                 (filter (fun r => cell_eqb (row_get "PROPERTY_ID" NaN r) property_id)
                    (rows room_df)))) as [mask Hm].
  - intros x Hx. apply in_map_iff in Hx as (r & <- & Hr).
    apply filter_In in Hr as [Hr _].
    destruct (row_get "ROOM_RISK_SCORE" NaN r) eqn:E; simpl; try now eexists.
    exfalso. eapply Hnum; eauto.
  - rewrite Hm. now eexists.
Qed.

(** ** The report *)

Lemma downloads_app (a b : list widget) : downloads (a ++ b) = downloads a ++ downloads b.
Proof. unfold downloads. apply flat_map_app. Qed.

Lemma quiet_ret {A} (a : A) : quiet (ret a).
Proof. reflexivity. Qed.

Lemma quiet_eval {A} (r : res A) : quiet (eval r).
Proof. destruct r; reflexivity. Qed.

Lemma quiet_bind {A B} (m : M A) (f : A -> M B) :
  quiet m -> (forall a, quiet (f a)) -> quiet (bind m f).
Proof.
  unfold quiet. intros Hm Hf. rewrite trace_bind, downloads_app, Hm.
  destruct (outcome m); [apply Hf|reflexivity|reflexivity].
Qed.

Lemma quiet_within {A} (c : list widget -> widget) (m : M A) :
  (forall tr, downloads [c tr] = []) -> quiet (within c m).
Proof. unfold quiet, within. intros H. destruct m. apply H. Qed.

Lemma quiet_for_each {A} (l : list A) (body : A -> M unit) :
  (forall a, quiet (body a)) -> quiet (for_each l body).
Proof.
  intros H. induction l as [|a l IH]; simpl.
  - apply quiet_ret.
  - apply quiet_bind; [apply H|intros _; exact IH].
Qed.

Lemma quiet_for_enumerate {A} (l : list A) (body : nat -> A -> M unit) (i : nat) :
  (forall j a, quiet (body j a)) -> quiet (for_enumerate i l body).
Proof.
  intros H. revert i. induction l as [|a l IH]; intros i; simpl.
  - apply quiet_ret.
  - apply quiet_bind; [apply H|intros _; apply IH].
Qed.

(** Splits a statement into its calls; none of them is a download button. *)
Ltac quiet_step :=
  first
    [ apply quiet_eval
    | apply quiet_ret
    | apply quiet_bind; [|intros ?]
    | apply quiet_within; intros ?; reflexivity
    | apply quiet_for_each; intros ?
    | apply quiet_for_enumerate; intros ? ?
    | match goal with |- quiet (if ?b then _ else _) => destruct b end
    | match goal with |- quiet (st _) => reflexivity end ].

Ltac quiet_tac := cbv zeta; repeat (quiet_step; cbv zeta).

Lemma quiet_page_setup : quiet page_setup.
Proof. reflexivity. Qed.

Lemma quiet_load_errors (w : World) : downloads (load_errors w) = [].
Proof.
  unfold load_errors, load_error. simpl.
  repeat match goal with
         | |- context [session_sql w ?q] => destruct (session_sql w q)
         end; reflexivity.
Qed.

Lemma quiet_sidebar_controls (w : World) : quiet (sidebar_controls w).
Proof. unfold sidebar_controls. quiet_tac. Qed.

Lemma quiet_property_selection (w : World) (df : DataFrame) :
  quiet (property_selection w df).
Proof. unfold property_selection. quiet_tac. Qed.

Lemma quiet_key_metrics {py : PythonRuntime} (row : Row) (df : DataFrame) (pid : cell) :
  quiet (key_metrics row df pid).
Proof. unfold key_metrics. quiet_tac. Qed.

Lemma quiet_room_breakdown (df : DataFrame) (pid : cell) (b : bool) :
  quiet (room_breakdown df pid b).
Proof. unfold room_breakdown. quiet_tac. Qed.

Lemma quiet_room_heatmap (view : DataFrame) : quiet (room_heatmap view).
Proof. unfold room_heatmap. quiet_tac. Qed.

Lemma quiet_explain_panel {py : PythonRuntime} (view : DataFrame) :
  quiet (explain_panel view).
Proof. unfold explain_panel, explain_room. quiet_tac. Qed.

Lemma quiet_inspection_coverage (n : nat) : quiet (inspection_coverage n).
Proof. unfold inspection_coverage. quiet_tac. Qed.

Lemma quiet_plain_summary {py : PythonRuntime} (df : DataFrame) (pid : cell) (row : Row) :
  quiet (plain_summary df pid row).
Proof. unfold plain_summary. quiet_tac. Qed.

Lemma quiet_after_report {py : PythonRuntime} (w : World) (pdf idf bdf : DataFrame)
    (pid : cell) :
  quiet (severity_guide ;;; vision_findings idf pid ;;; bank_signal bdf pid ;;;
         risk_trend w pdf ;;; footer).
Proof.
  unfold severity_guide, vision_findings, show_image, bank_signal, risk_trend, footer.
  quiet_tac.
Qed.

(** A download offered by [m ;; k] after a quiet [m] is offered by [k]. *)
Lemma download_after_quiet {A B} (m : M A) (k : A -> M B) (x : string * string) :
  quiet m -> In x (downloads (trace (bind m k))) ->
  exists a, outcome m = Return a /\ In x (downloads (trace (k a))).
Proof.
  unfold quiet. intros Hm. rewrite trace_bind, downloads_app, Hm. cbn [app].
  destruct (outcome m) as [a|e|]; [|contradiction|contradiction].
  intros H. now exists a.
Qed.

(** What [key_metrics] hands on: the room count and its confidence label. *)
Lemma key_metrics_returned {py : PythonRuntime} (row : Row) (room_df : DataFrame)
    (pid : cell) (n : nat) (c : string) :
  outcome (key_metrics row room_df pid) = Return (n, c) ->
  rooms_inspected room_df pid = Ok n /\ c = confidence n.
Proof.
  unfold key_metrics. rewrite !outcome_bind. cbn [st outcome snd].
  destruct (row_getitem "RISK_LEVEL" row); cbn [eval ret outcome snd]; [|discriminate].
  rewrite !outcome_bind. cbn [st outcome snd].
  destruct (res_bind (row_getitem "TOTAL_RISK" row) py_int);
    cbn [eval ret outcome snd]; [|discriminate].
  rewrite !outcome_bind. cbn [st outcome snd].
  destruct (rooms_inspected room_df pid) as [k|e]; cbn [eval ret outcome snd];
    [|discriminate].
  rewrite !outcome_bind. cbn [st ret outcome snd].
  intros H. inversion H; subst. auto.
Qed.

(** The one download of the report section. *)
Lemma report_downloads {py : PythonRuntime} (pid : cell) (row : Row) (n : nat) (c : string) :
  downloads (trace (report pid row n c)) =
  match report_text pid row n c with
  | Ok text => [(text, report_file_name pid)]
  | Raise _ => []
  end.
Proof.
  unfold report. rewrite trace_bind. cbn [st trace outcome fst snd].
  rewrite trace_bind.
  destruct (report_text pid row n c) as [text|e]; reflexivity.
Qed.

(** Every download a run offers is the report of the selected property:
    its text is [report_text] of the selection and the room count, its name
    is the property id followed by [_AI_Inspection_Report.txt]. *)
Lemma download_is_report {py : PythonRuntime} (w : World) (data file_name : string) :
  In (data, file_name) (downloads (trace (app w))) ->
  exists pid row n,
    outcome (property_selection w (property_df_of w)) = Return (pid, row) /\
    rooms_inspected (room_df_of w) pid = Ok n /\
    report_text pid row n (confidence n) = Ok data /\
    file_name = report_file_name pid.
Proof.
  rewrite app_unfold. cbv zeta. cbn [trace fst].
  rewrite !downloads_app, quiet_page_setup, quiet_load_errors. cbn [app].
  unfold empty_guard. destruct (df_empty (property_df_of w)); [intros []|].
  intros H.
  apply download_after_quiet in H as (_ & _ & H); [|apply quiet_ret].
  unfold dashboard in H.
  apply download_after_quiet in H as (controls & _ & H); [|apply quiet_sidebar_controls].
  apply download_after_quiet in H as ([pid row] & Hsel & H);
    [|apply quiet_property_selection].
  cbn [fst snd] in H.
  apply download_after_quiet in H as ([n c] & Hn & H); [|apply quiet_key_metrics].
  apply key_metrics_returned in Hn as [Hn ->]. cbn [fst snd] in H.
  apply download_after_quiet in H as (view & _ & H); [|apply quiet_room_breakdown].
  apply download_after_quiet in H as (_ & _ & H); [|apply quiet_room_heatmap].
  apply download_after_quiet in H as (_ & _ & H); [|apply quiet_explain_panel].
  apply download_after_quiet in H as (_ & _ & H); [|apply quiet_inspection_coverage].
  apply download_after_quiet in H as (_ & _ & H); [|apply quiet_plain_summary].
  rewrite trace_bind, downloads_app, report_downloads in H.
  exists pid, row, n. split; [exact Hsel|]. split; [exact Hn|].
  apply in_app_or in H as [H|H].
  - destruct (report_text pid row n (confidence n)) as [text|e]; [|contradiction].
    destruct H as [H|[]]. inversion H; subst. auto.
  - destruct (outcome (report pid row n (confidence n))); try contradiction.
    rewrite quiet_after_report in H. contradiction.
Qed.

(** A complete run: the sample page renders to the footer and offers the
    report of P1. *)
Lemma sample_run_completes :
  outcome (app (py := Sample.runtime) Sample.world) = Return tt /\
  downloads (trace (app (py := Sample.runtime) Sample.world))
  = [(Sample.report_P1, "P1_AI_Inspection_Report.txt")].
Proof. split; vm_compute; reflexivity. Qed.

(** The report text reads the property row only at RISK_LEVEL and
    TOTAL_RISK. *)
Lemma report_text_reads {py : PythonRuntime} (pid : cell) (row1 row2 : Row)
    (n : nat) (c : string) :
  row_getitem "RISK_LEVEL" row1 = row_getitem "RISK_LEVEL" row2 ->
  row_getitem "TOTAL_RISK" row1 = row_getitem "TOTAL_RISK" row2 ->
  report_text pid row1 n c = report_text pid row2 n c.
Proof. intros H1 H2. unfold report_text. now rewrite H1, H2. Qed.

(** C8. The report is a function of the property id, the property row
    (read at RISK_LEVEL and TOTAL_RISK) and the room count with its
    confidence label: two runs that agree on these offer byte-identical
    report text, whatever else differs (other tables, widget settings, the
    clock), and the file is named [{property_id}_AI_Inspection_Report.txt]. *)
Theorem report_deterministic {py : PythonRuntime} (w1 w2 : World) (pid : cell)
    (row1 row2 : Row) (n : nat) (d1 f1 d2 f2 : string) :
  outcome (property_selection w1 (property_df_of w1)) = Return (pid, row1) ->
  outcome (property_selection w2 (property_df_of w2)) = Return (pid, row2) ->
  row_getitem "RISK_LEVEL" row1 = row_getitem "RISK_LEVEL" row2 ->
  row_getitem "TOTAL_RISK" row1 = row_getitem "TOTAL_RISK" row2 ->
  rooms_inspected (room_df_of w1) pid = Ok n ->
  rooms_inspected (room_df_of w2) pid = Ok n ->
  In (d1, f1) (downloads (trace (app w1))) ->
  In (d2, f2) (downloads (trace (app w2))) ->
  d1 = d2 /\
  f1 = f2 /\
  f1 = fstring [str pid; "_AI_Inspection_Report.txt"] /\
  report_text pid row1 n (confidence n) = Ok d1.
Proof.
  intros Hs1 Hs2 Hr Ht Hn1 Hn2 H1 H2.
  apply download_is_report in H1 as (p1 & r1 & n1 & Hp1 & Hc1 & Ht1 & ->).
  apply download_is_report in H2 as (p2 & r2 & n2 & Hp2 & Hc2 & Ht2 & ->).
  rewrite Hs1 in Hp1. inversion Hp1; subst p1 r1.
  rewrite Hs2 in Hp2. inversion Hp2; subst p2 r2.
  rewrite Hn1 in Hc1. inversion Hc1; subst n1.
  rewrite Hn2 in Hc2. inversion Hc2; subst n2.
  rewrite (report_text_reads pid row1 row2 n _ Hr Ht) in Ht1.
  rewrite Ht1 in Ht2. inversion Ht2; subst d2.
  repeat split; try reflexivity.
  now rewrite (report_text_reads pid row1 row2 n _ Hr Ht).
Qed.

Lemma report_deterministic_witness :
  "P1_AI_Inspection_Report.txt" = fstring [str (py := Sample.runtime) (Str "P1");
                                           "_AI_Inspection_Report.txt"] /\
  report_text (py := Sample.runtime) (Str "P1") Sample.row_P1 3 (confidence 3)
  = Ok Sample.report_P1.
Proof.
  destruct (report_deterministic (py := Sample.runtime) Sample.world Sample.world_later
              (Str "P1") Sample.row_P1 Sample.row_P1 3
              Sample.report_P1 "P1_AI_Inspection_Report.txt"
              Sample.report_P1 "P1_AI_Inspection_Report.txt")
    as (_ & _ & Hname & Htext);
    try reflexivity;
    try (vm_compute; left; reflexivity).
  split; [exact Hname|exact Htext].
Defined.

(** * Further properties of the script *)

(** ** The property selectbox *)

Lemma cell_eqb_refl (x : cell) : is_nan x = false -> cell_eqb x x = true.
Proof.
  destruct x as [t|z|q|b|]; simpl; intros H; try discriminate.
  - apply String.eqb_refl.
  - apply Z.eqb_refl.
  - apply Qeq_bool_refl.
  - now destruct b.
Qed.

Lemma cell_eqb_nan (x : cell) : cell_eqb x NaN = false.
Proof. now destruct x. Qed.

Lemma same_key_refl (x : cell) : same_key x x = true.
Proof.
  unfold same_key. destruct x as [t|z|q|b|]; simpl; rewrite ?orb_false_r.
  - apply String.eqb_refl.
  - apply Z.eqb_refl.
  - apply Qeq_bool_refl.
  - now destruct b.
  - reflexivity.
Qed.

(** Being the same key, as a proposition. *)
Lemma same_key_spec (x y : cell) :
  same_key x y = true <->
  match x, y with
  | Str a, Str b => a = b
  | Int a, Int b => a = b
  | Int a, Float q => inject_Z a == q
  | Float q, Int a => q == inject_Z a
  | Float p, Float q => p == q
  | Inf a, Inf b => a = b
  | NaN, NaN => True
  | _, _ => False
  end.
Proof.
  unfold same_key.
  destruct x as [a|a|p|a|], y as [b|b|q|b|]; simpl; rewrite ?orb_false_r;
    try (split; [discriminate|tauto]); try tauto.
  - apply String.eqb_eq.
  - apply Z.eqb_eq.
  - apply Qeq_bool_iff.
  - apply Qeq_bool_iff.
  - apply Qeq_bool_iff.
  - destruct a, b; simpl; split; congruence.
Qed.

Lemma same_key_trans (x y z : cell) :
  same_key x y = true -> same_key y z = true -> same_key x z = true.
Proof.
  rewrite !same_key_spec.
  destruct x as [a|a|p|a|], y as [b|b|q|b|], z as [c|c|r|c|];
    try tauto; intros H1 H2;
    first [ congruence
          | subst; assumption
          | etransitivity; eassumption
          | apply inject_Z_injective; etransitivity; eassumption ].
Qed.

Lemma distinct_keys_filter (f : cell -> bool) (l : list cell) :
  distinct_keys l -> distinct_keys (filter f l).
Proof.
  induction l as [|x l IH]; simpl; [auto|].
  intros [Hx Hl]. destruct (f x); simpl; [|now apply IH].
  split; [|now apply IH].
  intros y Hy. apply filter_In in Hy as [Hy _]. now apply Hx.
Qed.

(** X1. The options of the property selectbox: every id of the table is
    offered once (NaN counts as one key), nothing else is offered, and the
    first option is the id of the first row. *)
Theorem unique_offers_each_id_once (l : list cell) :
  distinct_keys (unique l) /\
  (forall y, In y (unique l) -> In y l) /\
  (forall y, In y l -> exists z, In z (unique l) /\ same_key z y = true) /\
  hd_error (unique l) = hd_error l.
Proof.
  induction l as [|x l (Hd & Hs & Hc & _)]; simpl.
  - repeat split; auto. intros y [].
  - split; [|split; [|split]].
    + split.
      * intros y Hy. apply filter_In in Hy as [_ Hy].
        now apply negb_true_iff in Hy.
      * now apply distinct_keys_filter.
    + intros y [Hy|Hy]; [now left|].
      apply filter_In in Hy as [Hy _]. right. now apply Hs.
    + intros y [Hy|Hy].
      * subst. exists y. split; [now left|apply same_key_refl].
      * destruct (Hc y Hy) as (z & Hz & Hzy).
        destruct (same_key x z) eqn:E.
        -- exists x. split; [now left|]. now apply (same_key_trans x z y).
        -- exists z. split; [|exact Hzy]. right. apply filter_In.
           split; [exact Hz|]. now rewrite E.
    + reflexivity.
Qed.

Lemma unique_subset (l : list cell) (y : cell) : In y (unique l) -> In y l.
Proof.
  induction l as [|x l IH]; simpl; [auto|].
  intros [Hy|Hy]; [now left|].
  apply filter_In in Hy as [Hy _]. right. now apply IH.
Qed.

Lemma chosen_in (l : list cell) (i : nat) : l <> [] -> In (chosen l i) l.
Proof.
  unfold chosen. destruct l as [|c l]; [contradiction|]. intros _.
  destruct (lt_dec i (length (c :: l))) as [H|H].
  - now apply nth_In.
  - rewrite nth_overflow by lia. now left.
Qed.

(** How the selection ends on a table with its id column. *)
Lemma property_selection_outcome (w : World) (property_df : DataFrame) :
  has_column property_df "PROPERTY_ID" = true ->
  outcome (property_selection w property_df) =
  match iloc0 (filter (for_property
                         (chosen (unique (map (row_get "PROPERTY_ID" NaN) (rows property_df)))
                            (ui_property w)))
                 (rows property_df)) with
  | Ok row => Return (chosen (unique (map (row_get "PROPERTY_ID" NaN) (rows property_df)))
                        (ui_property w), row)
  | Raise e => Uncaught e
  end.
Proof.
  intros Hc. unfold property_selection. rewrite !outcome_bind. cbn [st outcome snd].
  unfold df_getitem. rewrite Hc. cbn [eval ret outcome snd].
  rewrite !outcome_bind. cbn [st outcome snd].
  rewrite df_where_eq_rows by exact Hc. cbn [eval ret outcome snd rows].
  rewrite !outcome_bind. unfold for_property.
  match goal with |- context [iloc0 ?l] => destruct (iloc0 l) end; reflexivity.
Qed.

Lemma selection_first_match (w : World) (property_df : DataFrame) :
  has_column property_df "PROPERTY_ID" = true ->
  rows property_df <> [] ->
  is_nan (chosen (unique (map (row_get "PROPERTY_ID" NaN) (rows property_df)))
            (ui_property w)) = false ->
  exists row rest,
    outcome (property_selection w property_df) =
    Return (chosen (unique (map (row_get "PROPERTY_ID" NaN) (rows property_df)))
              (ui_property w), row) /\
    filter (for_property
              (chosen (unique (map (row_get "PROPERTY_ID" NaN) (rows property_df)))
                 (ui_property w)))
      (rows property_df) = row :: rest.
Proof.
  intros Hc Hr Hn. rewrite (property_selection_outcome w _ Hc).
  set (pid := chosen _ _) in *.
  assert (Hin : In pid (map (row_get "PROPERTY_ID" NaN) (rows property_df))).
  { apply unique_subset, chosen_in.
    destruct (rows property_df); [contradiction|discriminate]. }
  apply in_map_iff in Hin as (r & Hg & Hrin).
  destruct (filter (for_property pid) (rows property_df)) as [|row rest] eqn:E.
  - exfalso. assert (Hf : In r (filter (for_property pid) (rows property_df))).
    { apply filter_In. split; [exact Hrin|]. unfold for_property.
      rewrite Hg. now apply cell_eqb_refl. }
    now rewrite E in Hf.
  - exists row, rest. split; reflexivity.
Qed.

(** X2. On a property table with its id column and at least one row, the
    selected id is an id of the table; unless it is NaN the selection
    returns it with the first row of the table carrying it; a NaN id (a
    missing value) equals nothing, and the selection raises IndexError. *)
Theorem selection_returns_first_match (w : World) (property_df : DataFrame) (pid : cell) :
  has_column property_df "PROPERTY_ID" = true ->
  rows property_df <> [] ->
  pid = chosen (unique (map (row_get "PROPERTY_ID" NaN) (rows property_df)))
          (ui_property w) ->
  In pid (map (row_get "PROPERTY_ID" NaN) (rows property_df)) /\
  (is_nan pid = false ->
   exists row rest,
     outcome (property_selection w property_df) = Return (pid, row) /\
     filter (for_property pid) (rows property_df) = row :: rest) /\
  (is_nan pid = true ->
   outcome (property_selection w property_df) = Uncaught IndexError).
Proof.
  intros Hc Hr Hpid.
  assert (Hin : In pid (map (row_get "PROPERTY_ID" NaN) (rows property_df))).
  { subst pid. apply unique_subset, chosen_in.
    destruct (rows property_df); [contradiction|discriminate]. }
  split; [exact Hin|]. split.
  - intros Hn. subst pid. now apply selection_first_match.
  - rewrite (property_selection_outcome w _ Hc), <- Hpid.
    intros Hn. destruct pid; try discriminate.
    assert (E : filter (for_property NaN) (rows property_df) = []).
    { clear. induction (rows property_df) as [|r l IH]; simpl; [reflexivity|].
      unfold for_property at 1. now rewrite cell_eqb_nan. }
    now rewrite E.
Qed.

Lemma selection_returns_first_match_witness :
  exists row rest,
    outcome (property_selection Sample.world_P2 Sample.property_table)
    = Return (Str "P2", row) /\
    filter (for_property (Str "P2")) (rows Sample.property_table) = row :: rest.
Proof.
  apply (proj1 (proj2 (selection_returns_first_match Sample.world_P2
                         Sample.property_table (Str "P2") eq_refl
                         ltac:(discriminate) eq_refl))).
  reflexivity.
Defined.

(** ** How a run ends *)

Lemma no_stop_bank_signal (df : DataFrame) (pid : cell) : no_stop (bank_signal df pid).
Proof. unfold bank_signal. no_stop_tac. Qed.

Lemma no_stop_risk_trend (w : World) (df : DataFrame) : no_stop (risk_trend w df).
Proof. unfold risk_trend. no_stop_tac. Qed.

Lemma no_stop_footer : no_stop footer.
Proof. unfold footer. no_stop_tac. Qed.

Lemma no_stop_dashboard {py : PythonRuntime} (w : World)
    (property_df room_df summary_df image_df bank_df : DataFrame) :
  no_stop (dashboard w property_df room_df summary_df image_df bank_df).
Proof.
  unfold dashboard.
  apply no_stop_bind; [apply no_stop_sidebar_controls|intros ?].
  apply no_stop_bind; [apply no_stop_property_selection|intros ?].
  apply no_stop_bind; [apply no_stop_key_metrics|intros ?].
  apply no_stop_bind; [apply no_stop_room_breakdown|intros ?].
  apply no_stop_bind; [apply no_stop_room_heatmap|intros ?].
  apply no_stop_bind; [apply no_stop_explain_panel|intros ?].
  apply no_stop_bind; [apply no_stop_inspection_coverage|intros ?].
  apply no_stop_bind; [apply no_stop_plain_summary|intros ?].
  apply no_stop_bind; [apply no_stop_report|intros ?].
  apply no_stop_bind; [apply no_stop_severity_guide|intros ?].
  apply no_stop_bind; [apply no_stop_vision_findings|intros ?].
  apply no_stop_bind; [apply no_stop_bank_signal|intros ?].
  apply no_stop_bind; [apply no_stop_risk_trend|intros ?].
  apply no_stop_footer.
Qed.

(** The run past the guard is the dashboard. *)
Lemma app_past_guard {py : PythonRuntime} (w : World) :
  df_empty (property_df_of w) = false ->
  app w =
  (trace page_setup ++ load_errors w ++
   trace (dashboard w (property_df_of w) (room_df_of w) (summary_df_of w)
            (image_df_of w) (bank_df_of w)),
   outcome (dashboard w (property_df_of w) (room_df_of w) (summary_df_of w)
              (image_df_of w) (bank_df_of w))).
Proof.
  intros H. rewrite app_unfold. cbv zeta. unfold empty_guard. rewrite H.
  rewrite trace_bind, outcome_bind. reflexivity.
Qed.

(** X3. [st.stop()] is reached exactly through the empty-table guard: a run
    ends stopped if and only if the property table is empty; on a table
    with a row and a column it returns or ends in an exception. *)
Theorem stops_iff_property_table_empty {py : PythonRuntime} (w : World) :
  outcome (app w) = Stopped <-> df_empty (property_df_of w) = true.
Proof.
  split.
  - intros H. destruct (df_empty (property_df_of w)) eqn:E; [reflexivity|].
    rewrite (app_past_guard w E) in H. cbn [outcome snd] in H.
    now apply no_stop_dashboard in H.
  - intros H. rewrite app_unfold. cbv zeta. unfold empty_guard. rewrite H.
    reflexivity.
Qed.

(** Stepping over a statement that cannot stop, towards the one that fails. *)
Ltac skip_over :=
  apply fails_bind_r;
  [ first [ apply no_stop_st | apply no_stop_eval | apply no_stop_sidebar_controls
          | apply no_stop_property_selection | apply no_stop_key_metrics
          | apply no_stop_room_breakdown | apply no_stop_room_heatmap
          | apply no_stop_explain_panel | apply no_stop_inspection_coverage
          | apply no_stop_plain_summary | apply no_stop_report
          | apply no_stop_severity_guide | apply no_stop_vision_findings ]
  | intros ? _ ].

(** X4. [load_df] only postpones a failed load: past the guard, a secondary
    table (rooms, summaries, images, bank signals) without its PROPERTY_ID
    column, as the empty frame of a failed query is, makes the run end in
    an uncaught exception. *)
Theorem secondary_table_without_id_fails {py : PythonRuntime} (w : World) (query : string) :
  df_empty (property_df_of w) = false ->
  In query [room_query; summary_query; image_query; bank_query] ->
  has_column (loaded (session_sql w) query) "PROPERTY_ID" = false ->
  fails (app w) /\
  (forall e, session_sql w query = Raise e ->
     has_column (loaded (session_sql w) query) "PROPERTY_ID" = false).
Proof.
  intros Hne Hq Hc. split.
  - unfold fails. rewrite (app_past_guard w Hne). cbn [outcome snd].
    change (fails (dashboard w (property_df_of w) (room_df_of w) (summary_df_of w)
                     (image_df_of w) (bank_df_of w))).
    unfold dashboard. do 2 skip_over.
    destruct Hq as [<-|[<-|[<-|[<-|[]]]]].
    + apply fails_bind_l. unfold key_metrics.
      do 6 skip_over.
      apply fails_bind_l. eapply fails_eval.
      apply rooms_inspected_no_column. exact Hc.
    + do 5 skip_over.
      apply fails_bind_l. unfold plain_summary.
      skip_over.
      apply fails_bind_l. eapply fails_eval.
      unfold summary_lookup, summary_df_of.
      rewrite df_where_eq_no_column by exact Hc. reflexivity.
    + do 8 skip_over.
      apply fails_bind_l. unfold vision_findings.
      skip_over.
      apply fails_bind_l. eapply fails_eval.
      unfold image_df_of. apply df_where_eq_no_column. exact Hc.
    + do 9 skip_over.
      apply fails_bind_l. unfold bank_signal.
      skip_over.
      apply fails_bind_l. eapply fails_eval.
      unfold bank_lookup, bank_df_of.
      rewrite df_where_eq_no_column by exact Hc. reflexivity.
  - intros e He. unfold loaded. rewrite He. reflexivity.
Qed.

Lemma secondary_table_without_id_fails_witness :
  fails (app (py := Sample.runtime) Cases.world_bank_down).
Proof.
  apply (proj1 (secondary_table_without_id_fails (py := Sample.runtime)
                  Cases.world_bank_down bank_query eq_refl
                  (or_intror (or_intror (or_intror (or_introl eq_refl)))) eq_refl)).
Defined.

(** ** Rendering to the footer *)

Lemma outcome_bind_returned {A B} (m : M A) (f : A -> M B) (a : A) :
  outcome m = Return a -> outcome (bind m f) = outcome (f a).
Proof. intros H. now rewrite outcome_bind, H. Qed.

Lemma outcome_within {A} (c : list widget -> widget) (m : M A) :
  outcome (within c m) = outcome m.
Proof. unfold within. now destruct m. Qed.

Lemma outcome_for_each {A} (l : list A) (body : A -> M unit) :
  (forall a, In a l -> outcome (body a) = Return tt) ->
  outcome (for_each l body) = Return tt.
Proof.
  induction l as [|a l IH]; simpl; intros H; [reflexivity|].
  rewrite (outcome_bind_returned _ _ tt) by (apply H; now left).
  apply IH. intros; apply H; now right.
Qed.

Lemma outcome_for_enumerate {A} (l : list A) (body : nat -> A -> M unit) (i : nat) :
  (forall j a, In a l -> outcome (body j a) = Return tt) ->
  outcome (for_enumerate i l body) = Return tt.
Proof.
  revert i. induction l as [|a l IH]; simpl; intros i H; [reflexivity|].
  rewrite (outcome_bind_returned _ _ tt) by (apply H; now left).
  apply IH. intros; apply H; now right.
Qed.

Lemma row_getitem_key (c : string) (r : Row) (d : cell) :
  has_key c r = true -> row_getitem c r = Ok (row_get c d r).
Proof.
  unfold has_key, row_getitem, row_get. now destruct (row_lookup c r).
Qed.

Lemma finite_has_key (c : string) (r : Row) :
  finite (row_get c NaN r) = true -> has_key c r = true.
Proof.
  unfold has_key, row_get. now destruct (row_lookup c r).
Qed.

Lemma py_int_finite {py : PythonRuntime} (c : cell) :
  finite c = true -> exists z, py_int c = Ok z.
Proof. destruct c; simpl; intros H; try discriminate; now eexists. Qed.

Lemma cell_ge_comparable (c : cell) (k : Z) :
  comparable c = true -> exists b, cell_ge c k = Ok b.
Proof. destruct c; simpl; intros H; try discriminate; now eexists. Qed.

Lemma classify_comparable (c : cell) :
  comparable c = true -> exists sr, classify c = Ok sr.
Proof.
  intros H. unfold classify.
  destruct (cell_ge_comparable c 80 H) as [b80 ->].
  destruct (cell_ge_comparable c 60 H) as [b60 ->].
  destruct (cell_ge_comparable c 30 H) as [b30 ->].
  cbn [res_bind]. destruct b80, b60, b30; now eexists.
Qed.

Lemma heatmap_label_comparable (c : cell) :
  comparable c = true -> exists l, heatmap_label c = Ok l.
Proof.
  intros H. unfold heatmap_label.
  destruct (cell_ge_comparable c 80 H) as [b80 ->].
  destruct (cell_ge_comparable c 60 H) as [b60 ->].
  destruct (cell_ge_comparable c 30 H) as [b30 ->].
  cbn [res_bind]. destruct b80, b60, b30; now eexists.
Qed.

(** The view is the table filtered, whenever it exists. *)
Lemma room_view_rows (room_df : DataFrame) (property_id : cell)
    (only_high_risk : bool) (view : DataFrame) :
  room_view room_df property_id only_high_risk = Ok view ->
  view = mkDF (columns room_df)
           (filter (displayed_room property_id only_high_risk) (rows room_df)).
Proof.
  intros H. unfold room_view in H.
  destruct (has_column room_df "PROPERTY_ID") eqn:Hp.
  - rewrite df_where_eq_rows in H by exact Hp. cbn [res_bind] in H.
    destruct only_high_risk.
    + apply df_where_ge_rows in H. cbn [columns rows] in H.
      rewrite filter_twice in H. exact H.
    + inversion H; subst. f_equal. apply filter_ext.
      intros r. unfold displayed_room. now rewrite andb_true_r.
  - rewrite df_where_eq_no_column in H by exact Hp. discriminate.
Qed.

Lemma room_view_ready (room_df : DataFrame) (property_id : cell) (only_high_risk : bool) :
  has_column room_df "PROPERTY_ID" = true ->
  has_column room_df "ROOM_RISK_SCORE" = true ->
  forallb room_row_ok (filter (for_property property_id) (rows room_df)) = true ->
  room_view room_df property_id only_high_risk =
  Ok (mkDF (columns room_df)
        (filter (displayed_room property_id only_high_risk) (rows room_df))).
Proof.
  intros Hp Hs Hok.
  assert (E : exists view, room_view room_df property_id only_high_risk = Ok view).
  { unfold room_view. rewrite df_where_eq_rows by exact Hp.
    cbn [res_bind]. destruct only_high_risk; [|now eexists].
    unfold df_where_ge, df_getitem, has_column. cbn [columns rows].
    fold (has_column room_df "ROOM_RISK_SCORE"). rewrite Hs. cbn [res_bind].
    destruct (res_mapM_total (fun x => cell_ge x 60)
                (map (row_get "ROOM_RISK_SCORE" NaN)
                   (filter (fun r => cell_eqb (row_get "PROPERTY_ID" NaN r) property_id)
                      (rows room_df)))) as [mask Hm].
    - intros x Hx. apply in_map_iff in Hx as (r & <- & Hr).
      apply cell_ge_comparable.
      rewrite forallb_forall in Hok. specialize (Hok r Hr).
      unfold room_row_ok in Hok. now apply andb_prop in Hok as [_ Hok].
    - rewrite Hm. now eexists. }
  destruct E as [view E]. rewrite E. f_equal. now apply room_view_rows in E.
Qed.

(** A displayed room is a room of the property. *)
Lemma displayed_for_property (pid : cell) (b : bool) (l : list Row) (r : Row) :
  In r (filter (displayed_room pid b) l) -> In r (filter (for_property pid) l).
Proof.
  rewrite !filter_In. unfold displayed_room, for_property.
  intros [H1 H2]. apply andb_prop in H2 as [H2 _]. now split.
Qed.

Lemma first_match (pid : cell) (l : list Row) :
  existsb (for_property pid) l = true ->
  exists row rest, filter (for_property pid) l = row :: rest.
Proof.
  intros H. apply existsb_exists in H as (r & Hr & Hp).
  destruct (filter (for_property pid) l) as [|row rest] eqn:E.
  - assert (Hf : In r (filter (for_property pid) l)) by (apply filter_In; now split).
    now rewrite E in Hf.
  - now exists row, rest.
Qed.

(** Runs a rendering call and moves to the next statement. *)
Ltac step_st := rewrite outcome_bind; cbn [st ret outcome snd].

Lemma key_metrics_ready {py : PythonRuntime} (row : Row) (room_df : DataFrame) (pid : cell) :
  property_row_ok row = true ->
  has_column room_df "PROPERTY_ID" = true ->
  outcome (key_metrics row room_df pid) =
  Return (count_rows_for pid (rows room_df), confidence (count_rows_for pid (rows room_df))).
Proof.
  intros Hrow Hc. unfold property_row_ok in Hrow. apply andb_prop in Hrow as [Hl Ht].
  unfold key_metrics. do 2 step_st.
  rewrite (row_getitem_key _ _ NaN Hl). rewrite outcome_bind. cbn [eval ret outcome snd].
  step_st.
  rewrite (row_getitem_key _ _ NaN (finite_has_key _ _ Ht)). cbn [res_bind].
  destruct (py_int_finite _ Ht) as [z ->].
  rewrite outcome_bind. cbn [eval ret outcome snd]. step_st.
  rewrite (rooms_inspected_count _ _ Hc).
  rewrite outcome_bind. cbn [eval ret outcome snd]. repeat step_st. reflexivity.
Qed.

Lemma room_breakdown_ready (room_df : DataFrame) (pid : cell) (b : bool) :
  has_column room_df "PROPERTY_ID" = true ->
  has_column room_df "ROOM_TYPE" = true ->
  has_column room_df "ROOM_RISK_SCORE" = true ->
  forallb room_row_ok (filter (for_property pid) (rows room_df)) = true ->
  outcome (room_breakdown room_df pid b) =
  Return (mkDF (columns room_df) (filter (displayed_room pid b) (rows room_df))).
Proof.
  intros Hp Ht Hs Hok. unfold room_breakdown. step_st.
  rewrite (room_view_ready _ _ _ Hp Hs Hok).
  rewrite outcome_bind. cbn [eval ret outcome snd]. step_st.
  unfold df_indexed, has_column. cbn [columns rows].
  fold (has_column room_df "ROOM_TYPE"). fold (has_column room_df "ROOM_RISK_SCORE").
  rewrite Ht, Hs.
  change (String.eqb "ROOM_TYPE" "ROOM_RISK_SCORE") with false. cbn [andb negb].
  rewrite outcome_bind. cbn [eval ret outcome snd]. repeat step_st. reflexivity.
Qed.

Lemma room_heatmap_ready (cols : list string) (rs : list Row) :
  has_column (mkDF cols rs) "ROOM_TYPE" = true ->
  has_column (mkDF cols rs) "ROOM_RISK_SCORE" = true ->
  forallb room_row_ok rs = true ->
  outcome (room_heatmap (mkDF cols rs)) = Return tt.
Proof.
  intros Ht Hs Hok. unfold room_heatmap. step_st.
  unfold df_getitem at 1. rewrite Hs. cbn [rows].
  rewrite outcome_bind. cbn [eval ret outcome snd].
  destruct (res_mapM_total heatmap_label (map (row_get "ROOM_RISK_SCORE" NaN) rs))
    as [labels Hl].
  { intros x Hx. apply in_map_iff in Hx as (r & <- & Hr).
    apply heatmap_label_comparable.
    rewrite forallb_forall in Hok. specialize (Hok r Hr).
    unfold room_row_ok in Hok. now apply andb_prop in Hok as [_ Hok]. }
  rewrite Hl. rewrite outcome_bind. cbn [eval ret outcome snd].
  unfold df_project. cbn [filter]. rewrite !has_column_setitem.
  rewrite Ht, Hs. cbn [orb negb]. rewrite String.eqb_refl, orb_true_r. cbn [negb].
  rewrite outcome_bind. cbn [eval ret outcome snd]. repeat step_st. reflexivity.
Qed.

Lemma explain_room_ready {py : PythonRuntime} (row : Row) :
  room_row_ok row = true -> outcome (explain_room row) = Return tt.
Proof.
  unfold room_row_ok. intros H.
  apply andb_prop in H as [H Hc]. apply andb_prop in H as [Ht Hs].
  unfold explain_room.
  rewrite (row_getitem_key _ _ NaN Hs). rewrite outcome_bind. cbn [eval ret outcome snd].
  destruct (classify_comparable _ Hc) as [sr ->].
  rewrite outcome_bind. cbn [eval ret outcome snd].
  rewrite (row_getitem_key _ _ NaN Ht). rewrite outcome_bind. cbn [eval ret outcome snd].
  rewrite outcome_within. do 2 step_st.
  destruct (String.eqb (fst sr) "HIGH"); [reflexivity|].
  destruct (String.eqb (fst sr) "MEDIUM"); [reflexivity|].
  destruct (String.eqb (fst sr) "LOW"); reflexivity.
Qed.

Lemma explain_panel_ready {py : PythonRuntime} (view : DataFrame) :
  forallb room_row_ok (rows view) = true -> outcome (explain_panel view) = Return tt.
Proof.
  intros Hok. unfold explain_panel. do 2 step_st.
  rewrite (outcome_bind_returned _ _ tt); [reflexivity|].
  apply outcome_for_each. intros r Hr. apply explain_room_ready.
  rewrite forallb_forall in Hok. now apply Hok.
Qed.

Lemma summary_lookup_ready (summary_df : DataFrame) (pid : cell) :
  has_column summary_df "PROPERTY_ID" = true ->
  has_column summary_df "SUMMARY_TEXT" = true ->
  existsb (for_property pid) (rows summary_df) = true ->
  exists row rest,
    filter (for_property pid) (rows summary_df) = row :: rest /\
    summary_lookup summary_df pid = Ok (row_get "SUMMARY_TEXT" NaN row).
Proof.
  intros Hp Ht Hex. destruct (first_match _ _ Hex) as (row & rest & E).
  exists row, rest. split; [exact E|].
  unfold summary_lookup. rewrite df_where_eq_rows by exact Hp. cbn [res_bind].
  unfold df_getitem, has_column. cbn [columns rows].
  fold (has_column summary_df "SUMMARY_TEXT"). rewrite Ht.
  unfold for_property in E. rewrite E. reflexivity.
Qed.

Lemma plain_summary_ready {py : PythonRuntime} (summary_df : DataFrame) (pid : cell)
    (row : Row) :
  has_column summary_df "PROPERTY_ID" = true ->
  has_column summary_df "SUMMARY_TEXT" = true ->
  existsb (for_property pid) (rows summary_df) = true ->
  has_key "RISK_LEVEL" row = true ->
  outcome (plain_summary summary_df pid row) = Return tt.
Proof.
  intros Hp Ht Hex Hl.
  destruct (summary_lookup_ready _ _ Hp Ht Hex) as (r & rest & _ & E).
  unfold plain_summary. step_st. rewrite E.
  rewrite outcome_bind. cbn [eval ret outcome snd].
  rewrite (row_getitem_key _ _ NaN Hl).
  rewrite outcome_bind. cbn [eval ret outcome snd].
  rewrite outcome_bind.
  destruct (cell_eqb (row_get "RISK_LEVEL" NaN row) (Str "HIGH")); [reflexivity|].
  rewrite outcome_bind. cbn [eval ret outcome snd].
  destruct (cell_eqb (row_get "RISK_LEVEL" NaN row) (Str "MEDIUM")); reflexivity.
Qed.

Lemma report_ready {py : PythonRuntime} (pid : cell) (row : Row) (n : nat) (c : string) :
  property_row_ok row = true -> outcome (report pid row n c) = Return tt.
Proof.
  unfold property_row_ok. intros H. apply andb_prop in H as [Hl Ht].
  unfold report. step_st. unfold report_text.
  rewrite (row_getitem_key _ _ NaN Hl).
  rewrite (row_getitem_key _ _ NaN (finite_has_key _ _ Ht)). cbn [res_bind].
  rewrite outcome_bind. cbn [eval ret outcome snd]. repeat step_st. reflexivity.
Qed.

Lemma show_image_ready {py : PythonRuntime} (i : nat) (row : Row) :
  image_row_ok row = true -> outcome (show_image i row) = Return tt.
Proof.
  unfold image_row_ok. intros H. apply andb_prop in H as [Ht Hc].
  unfold show_image. rewrite outcome_within. step_st.
  rewrite (row_getitem_key _ _ NaN Ht). rewrite outcome_bind. cbn [eval ret outcome snd].
  destruct (py_int_finite _ Hc) as [z ->].
  rewrite outcome_bind. reflexivity.
Qed.

Lemma vision_findings_ready {py : PythonRuntime} (image_df : DataFrame) (pid : cell) :
  has_column image_df "PROPERTY_ID" = true ->
  forallb image_row_ok (filter (for_property pid) (rows image_df)) = true ->
  outcome (vision_findings image_df pid) = Return tt.
Proof.
  intros Hp Hok. unfold vision_findings. step_st.
  rewrite df_where_eq_rows by exact Hp.
  rewrite outcome_bind. cbn [eval ret outcome snd rows]. step_st.
  rewrite (outcome_bind_returned _ _ tt); [reflexivity|].
  apply outcome_for_enumerate. intros j r Hr. apply show_image_ready.
  rewrite forallb_forall in Hok. now apply Hok.
Qed.

Lemma bank_signal_ready (bank_df : DataFrame) (pid : cell) :
  has_column bank_df "PROPERTY_ID" = true ->
  existsb (for_property pid) (rows bank_df) = true ->
  outcome (bank_signal bank_df pid) = Return tt.
Proof.
  intros Hp Hex. destruct (first_match _ _ Hex) as (row & rest & E).
  unfold bank_signal. step_st. unfold bank_lookup.
  rewrite df_where_eq_rows by exact Hp. cbn [res_bind rows].
  unfold for_property in E. rewrite E. cbn [iloc0].
  rewrite outcome_bind. cbn [eval ret outcome snd]. rewrite outcome_bind.
  destruct (cell_eqb _ (Str "LOAN_REJECT")); [reflexivity|].
  destruct (cell_eqb _ (Str "MANUAL_REVIEW")); reflexivity.
Qed.

Lemma risk_trend_ready (w : World) (property_df : DataFrame) :
  has_column property_df "TOTAL_RISK" = true ->
  outcome (risk_trend w property_df) = Return tt.
Proof.
  intros H. unfold risk_trend. step_st. unfold df_getitem. rewrite H.
  rewrite outcome_bind. cbn [eval ret outcome snd]. repeat step_st. reflexivity.
Qed.

(** X5. On data the script is written for the page renders to the footer:
    when the tables carry the columns it reads, the selected id is not
    missing, the property and its room and image rows hold usable values
    and the summary and bank tables have a row for it ([page_ready]), the
    run returns, neither stopping nor raising. *)
Theorem ready_page_renders {py : PythonRuntime} (w : World) :
  page_ready w = true -> outcome (app w) = Return tt.
Proof.
  unfold page_ready. cbv zeta. rewrite !andb_true_iff, !negb_true_iff.
  intros (((((((((((((((Hpi & Hpt) & Hpr) & Hnan) & Hprow) & Hri) & Hrt) & Hrs) & Hrrow)
                   & Hsi) & Hst) & Hsx) & Hii) & Hirow) & Hbi) & Hbx).
  assert (Hrows : rows (property_df_of w) <> []).
  { intros E. rewrite E in Hpr. discriminate. }
  assert (Hne : df_empty (property_df_of w) = false).
  { unfold df_empty, has_column in *. destruct (columns (property_df_of w)); [discriminate|].
    destruct (rows (property_df_of w)); [contradiction|reflexivity]. }
  rewrite (app_past_guard w Hne). cbn [outcome snd]. unfold dashboard.
  erewrite (outcome_bind_returned (sidebar_controls w)) by reflexivity. cbn [fst snd].
  destruct (selection_first_match w _ Hpi Hrows Hnan) as (row & rest & Hsel & Hfirst).
  fold (selected_id w) in Hsel, Hfirst.
  rewrite (outcome_bind_returned _ _ _ Hsel). cbn [fst snd].
  assert (Hrow : property_row_ok row = true).
  { rewrite forallb_forall in Hprow. apply Hprow. rewrite Hfirst. now left. }
  rewrite (outcome_bind_returned _ _ _ (key_metrics_ready _ _ _ Hrow Hri)). cbn [fst snd].
  rewrite (outcome_bind_returned _ _ _ (room_breakdown_ready _ _ _ Hri Hrt Hrs Hrrow)).
  assert (Hview : forallb room_row_ok
                    (filter (displayed_room (selected_id w) (ui_only_high_risk w))
                       (rows (room_df_of w))) = true).
  { apply forallb_forall. intros r Hr. rewrite forallb_forall in Hrrow.
    apply Hrrow. eapply displayed_for_property, Hr. }
  rewrite (outcome_bind_returned _ _ tt)
    by (apply room_heatmap_ready; [exact Hrt|exact Hrs|exact Hview]).
  rewrite (outcome_bind_returned _ _ tt) by (apply explain_panel_ready; exact Hview).
  rewrite (outcome_bind_returned _ _ tt) by reflexivity.
  assert (Hl : has_key "RISK_LEVEL" row = true).
  { unfold property_row_ok in Hrow. now apply andb_prop in Hrow as [Hl _]. }
  rewrite (outcome_bind_returned _ _ tt) by (now apply plain_summary_ready).
  rewrite (outcome_bind_returned _ _ tt) by (now apply report_ready).
  rewrite (outcome_bind_returned _ _ tt) by reflexivity.
  rewrite (outcome_bind_returned _ _ tt) by (now apply vision_findings_ready).
  rewrite (outcome_bind_returned _ _ tt) by (now apply bank_signal_ready).
  rewrite (outcome_bind_returned _ _ tt) by (now apply risk_trend_ready).
  reflexivity.
Qed.

Lemma ready_page_renders_witness :
  outcome (app (py := Sample.runtime) Sample.world) = Return tt.
Proof.
  apply (ready_page_renders (py := Sample.runtime) Sample.world). reflexivity.
Defined.

(** ** Coverage and counts *)

Lemma Qle_bool_cases (a b : Q) :
  (Qle_bool a b = true /\ a <= b) \/ (Qle_bool a b = false /\ b < a).
Proof.
  destruct (Qle_bool a b) eqn:E.
  - left. split; [reflexivity|]. now apply Qle_bool_iff.
  - right. split; [reflexivity|]. apply Qnot_le_lt. intros H.
    apply Qle_bool_iff in H. congruence.
Qed.

(** X6. The value handed to [st.progress] is always a fraction between 0
    and 1, it never decreases when more rooms are inspected, and it reaches
    3/5 exactly when the confidence label is "High". *)
Theorem coverage_ratio_bounds (n m : nat) :
  0 <= coverage_ratio n <= 1 /\
  ((n <= m)%nat -> coverage_ratio n <= coverage_ratio m) /\
  (confidence n = "High" <-> 3 # 5 <= coverage_ratio n).
Proof.
  unfold coverage_ratio, py_min, confidence.
  destruct (Qle_bool_cases (Z.of_nat n # 5) 1) as [[-> Hn]|[-> Hn]];
    destruct (Qle_bool_cases (Z.of_nat m # 5) 1) as [[-> Hm]|[-> Hm]];
    (destruct (3 <=? n)%nat eqn:E; [apply Nat.leb_le in E|apply Nat.leb_gt in E]);
    unfold Qle, Qlt in *; simpl in *;
    repeat split; intros; try lia; try reflexivity; try discriminate.
Qed.

Lemma coverage_ratio_bounds_witness : coverage_ratio 2 <= coverage_ratio 4.
Proof. apply (proj1 (proj2 (coverage_ratio_bounds 2 4))). lia. Defined.

(** X7. The count behind "Rooms Inspected", the confidence label and the
    coverage bar is taken over all rooms of the property, whatever the
    high-risk option says: the displayed table never has more rows than the
    count, and has exactly that many with the option off. *)
Theorem displayed_rooms_within_inspected (room_df : DataFrame) (property_id : cell)
    (only_high_risk : bool) (view : DataFrame) :
  room_view room_df property_id only_high_risk = Ok view ->
  exists n,
    rooms_inspected room_df property_id = Ok n /\
    (length (rows view) <= n)%nat /\
    (only_high_risk = false -> length (rows view) = n).
Proof.
  intros H.
  assert (Hp : has_column room_df "PROPERTY_ID" = true).
  { destruct (has_column room_df "PROPERTY_ID") eqn:Hp; [reflexivity|].
    unfold room_view in H. rewrite df_where_eq_no_column in H by exact Hp. discriminate. }
  apply room_view_rows in H. subst view. cbn [rows].
  exists (count_rows_for property_id (rows room_df)).
  split; [now apply rooms_inspected_count|].
  rewrite count_rows_for_filter.
  assert (E : filter (displayed_room property_id only_high_risk) (rows room_df) =
              filter (fun r => if only_high_risk then scores_60 r else true)
                (filter (fun r => cell_eqb (row_get "PROPERTY_ID" NaN r) property_id)
                   (rows room_df))).
  { rewrite filter_twice. reflexivity. }
  rewrite E. split.
  - apply filter_length_le.
  - intros ->. f_equal. clear.
    induction (filter _ (rows room_df)) as [|r l IH]; simpl; [reflexivity|].
    now rewrite IH.
Qed.

Lemma displayed_rooms_within_inspected_witness :
  exists n,
    rooms_inspected Sample.room_table (Str "P1") = Ok n /\
    (length [Sample.room "P1" "Kitchen" 85; Sample.room "P1" "Bathroom" 65] <= n)%nat.
Proof.
  destruct (displayed_rooms_within_inspected Sample.room_table (Str "P1") true
              (mkDF (columns Sample.room_table)
                 [Sample.room "P1" "Kitchen" 85; Sample.room "P1" "Bathroom" 65])
              eq_refl) as (n & Hn & Hle & _).
  exists n. split; [exact Hn|exact Hle].
Defined.

(** ** The explanation panel *)

Lemma classify_num (c : cell) (s : Q) :
  cell_num c = Some s ->
  classify c =
  Ok (if Qle_bool 80 s then ("HIGH", "Severe structural or safety defect")
      else if Qle_bool 60 s then ("MEDIUM", "Electrical hazard or dampness detected")
      else if Qle_bool 30 s then ("LOW", "Minor maintenance or finishing issue")
      else ("SAFE", "No significant defects found")).
Proof.
  intros H. unfold classify. rewrite !(cell_ge_num c s) by exact H. cbn [res_bind].
  change (inject_Z 80) with 80. change (inject_Z 60) with 60. change (inject_Z 30) with 30.
  destruct (Qle_bool 80 s); [reflexivity|].
  destruct (Qle_bool 60 s); [reflexivity|].
  destruct (Qle_bool 30 s); reflexivity.
Qed.

Lemma bind_ok {A B} (a : A) (f : A -> M B) : bind (eval (Ok a)) f = f a.
Proof. unfold bind, eval, ret. now destruct (f a). Qed.

Lemma bind_st {B} (x : widget) (f : unit -> M B) :
  bind (st x) f = (x :: trace (f tt), outcome (f tt)).
Proof. unfold bind, st. now destruct (f tt). Qed.

Lemma row_getitem_lookup (c : string) (r : Row) (v : cell) :
  row_lookup c r = Some v -> row_getitem c r = Ok v.
Proof. unfold row_getitem. now intros ->. Qed.

(** X8. For a room with a type and a numeric score the panel renders one
    expander labelled with the room type, holding the score, the
    explanation and one status box chosen by the score: an error box from
    80 up, a warning on [60, 80), an info box on [30, 60), a success box
    below 30. *)
Theorem explain_room_by_tier {py : PythonRuntime} (row : Row) (room_type score : cell)
    (s : Q) :
  row_lookup "ROOM_TYPE" row = Some room_type ->
  row_lookup "ROOM_RISK_SCORE" row = Some score ->
  cell_num score = Some s ->
  exists reason status,
    explain_room row =
    ([expander (fstring ["🚪 "; str room_type])
        [markdown (fstring ["**Room Risk Score:** "; str score]);
         markdown (fstring ["**AI Explanation:** "; reason]);
         status]],
     Return tt) /\
    (80 <= s -> status = error "High-confidence safety risk") /\
    (60 <= s < 80 -> status = warning "Moderate risk, attention advised") /\
    (30 <= s < 60 -> status = info "Low risk, routine maintenance suggested") /\
    (s < 30 -> status = success "Room appears safe").
Proof.
  intros Ht Hs Hn. unfold explain_room.
  rewrite (row_getitem_lookup _ _ _ Hs), bind_ok.
  rewrite (classify_num _ _ Hn), bind_ok.
  rewrite (row_getitem_lookup _ _ _ Ht), bind_ok.
  destruct (Qle_bool_cases 80 s) as [[-> H80]|[-> H80]];
    [|destruct (Qle_bool_cases 60 s) as [[-> H60]|[-> H60]];
      [|destruct (Qle_bool_cases 30 s) as [[-> H30]|[-> H30]]]];
    (do 2 eexists; split; [reflexivity|]);
    repeat split; intros; try reflexivity; exfalso; lra.
Qed.

Lemma explain_room_by_tier_witness :
  exists reason status,
    explain_room (py := Sample.runtime) (Sample.room "P1" "Bathroom" 65) =
    ([expander "🚪 Bathroom"
        [markdown "**Room Risk Score:** 65";
         markdown (fstring ["**AI Explanation:** "; reason]);
         status]],
     Return tt) /\
    status = warning "Moderate risk, attention advised".
Proof.
  destruct (explain_room_by_tier (py := Sample.runtime) (Sample.room "P1" "Bathroom" 65)
              (Str "Bathroom") (Int 65) 65 eq_refl eq_refl eq_refl)
    as (reason & status & He & _ & Hm & _).
  exists reason, status. split; [exact He|]. apply Hm. split; lra.
Defined.

(** What a loop has rendered when it ran to its end. *)
Lemma for_each_returned {A} (l : list A) (body : A -> M unit) :
  outcome (for_each l body) = Return tt ->
  trace (for_each l body) = flat_map (fun a => trace (body a)) l /\
  forall a, In a l -> outcome (body a) = Return tt.
Proof.
  induction l as [|a l IH]; simpl.
  - intros _. split; [reflexivity|]. intros a [].
  - rewrite outcome_bind, trace_bind.
    destruct (outcome (body a)) as [[]| |] eqn:E; try discriminate.
    intros H. destruct (IH H) as [Ht Ho]. rewrite Ht. split; [reflexivity|].
    intros b [<-|Hb]; [exact E|now apply Ho].
Qed.

(** One room, once rendered, is one expander labelled with its type. *)
Lemma explain_room_returned {py : PythonRuntime} (row : Row) :
  outcome (explain_room row) = Return tt ->
  map fst (expanders (trace (explain_room row))) =
  [fstring ["🚪 "; str (row_get "ROOM_TYPE" NaN row)]].
Proof.
  unfold explain_room, row_getitem, row_get.
  destruct (row_lookup "ROOM_RISK_SCORE" row) as [score|]; [|discriminate].
  cbn [eval]. rewrite outcome_bind, trace_bind. cbn [ret outcome trace fst snd app].
  destruct (classify score) as [sr|e]; [|discriminate].
  cbn [eval]. rewrite outcome_bind, trace_bind. cbn [ret outcome trace fst snd app].
  destruct (row_lookup "ROOM_TYPE" row) as [t|]; [|discriminate].
  cbn [eval]. rewrite outcome_bind, trace_bind. cbn [ret outcome trace fst snd app].
  intros _. unfold within.
  match goal with |- context [let (_, _) := ?m in _] => destruct m end.
  reflexivity.
Qed.

Lemma expanders_app (a b : list widget) : expanders (a ++ b) = expanders a ++ expanders b.
Proof. unfold expanders. apply flat_map_app. Qed.

Lemma expanders_of_rooms {py : PythonRuntime} (l : list Row) :
  (forall r, In r l -> outcome (explain_room r) = Return tt) ->
  map fst (expanders (flat_map (fun r => trace (explain_room r)) l)) =
  map (fun row => fstring ["🚪 "; str (row_get "ROOM_TYPE" NaN row)]) l.
Proof.
  induction l as [|r l IH]; intros Ho; [reflexivity|].
  cbn [flat_map map]. rewrite expanders_app, map_app.
  rewrite (explain_room_returned r) by (apply Ho; now left).
  change ([?x] ++ ?t) with (x :: t). f_equal.
  apply IH. intros a Ha. apply Ho. now right.
Qed.

(** X9. A panel that renders to its end shows one expander per displayed
    room, in table order, each labelled with the room's type. *)
Theorem explain_panel_one_per_room {py : PythonRuntime} (room_view : DataFrame) :
  outcome (explain_panel room_view) = Return tt ->
  map fst (expanders (trace (explain_panel room_view))) =
  map (fun row => fstring ["🚪 "; str (row_get "ROOM_TYPE" NaN row)]) (rows room_view).
Proof.
  unfold explain_panel. rewrite !bind_st. cbn [trace outcome fst snd].
  rewrite outcome_bind, trace_bind.
  destruct (outcome (for_each (rows room_view) explain_room)) as [[]| |] eqn:E;
    try discriminate.
  intros _. destruct (for_each_returned _ _ E) as [Ht Ho]. rewrite Ht.
  match goal with
  | |- map fst (expanders (?x :: ?y :: ?l ++ ?d)) = _ =>
      change (x :: y :: l ++ d) with ([x; y] ++ l ++ d)
  end.
  rewrite !expanders_app, !map_app, (expanders_of_rooms _ Ho).
  cbn [st trace fst]. unfold expanders at 1 2. cbn [flat_map app map].
  apply app_nil_r.
Qed.

Lemma explain_panel_one_per_room_witness :
  map fst (expanders (trace (explain_panel (py := Sample.runtime) Sample.room_table))) =
  ["🚪 Kitchen"; "🚪 Bathroom"; "🚪 Hall"; "🚪 Bedroom"].
Proof.
  apply (explain_panel_one_per_room (py := Sample.runtime) Sample.room_table).
  reflexivity.
Defined.

(** ** What the high-risk option leaves *)

(** X10. With "Highlight only high-risk rooms" on, every room left in the
    view is classified HIGH or MEDIUM by the explanation loop and labelled
    High or Medium in the heatmap: no LOW or SAFE room is shown. *)
Theorem high_risk_view_tiers (room_df : DataFrame) (property_id : cell)
    (view : DataFrame) (r : Row) :
  room_view room_df property_id true = Ok view ->
  In r (rows view) ->
  (res_map fst (classify (row_get "ROOM_RISK_SCORE" NaN r)) = Ok "HIGH" \/
   res_map fst (classify (row_get "ROOM_RISK_SCORE" NaN r)) = Ok "MEDIUM") /\
  (heatmap_label (row_get "ROOM_RISK_SCORE" NaN r) = Ok "High" \/
   heatmap_label (row_get "ROOM_RISK_SCORE" NaN r) = Ok "Medium").
Proof.
  intros Hv Hr. apply room_view_rows in Hv. subst view. cbn [rows] in Hr.
  apply filter_In in Hr as [_ Hr]. unfold displayed_room in Hr.
  apply andb_prop in Hr as [_ Hr]. unfold scores_60 in Hr.
  unfold classify, heatmap_label.
  destruct (row_get "ROOM_RISK_SCORE" NaN r) as [t|z|q|b|]; cbn [cell_ge] in *;
    try discriminate.
  - cbn [res_bind res_map]. rewrite Hr. destruct (80 <=? z)%Z; cbn; auto.
  - cbn [res_bind res_map]. rewrite Hr.
    destruct (Qle_bool (inject_Z 80) q); cbn; auto.
  - rewrite Hr. cbn. auto.
Qed.

Lemma high_risk_view_tiers_witness :
  res_map fst (classify (Int 65)) = Ok "HIGH" \/
  res_map fst (classify (Int 65)) = Ok "MEDIUM".
Proof.
  apply (high_risk_view_tiers Sample.room_table (Str "P1")
           (mkDF (columns Sample.room_table)
              [Sample.room "P1" "Kitchen" 85; Sample.room "P1" "Bathroom" 65])
           (Sample.room "P1" "Bathroom" 65) eq_refl).
  simpl. auto.
Defined.

(** ** The heatmap table *)

Lemma row_lookup_set_same (c : string) (v : cell) (r : Row) :
  row_lookup c (row_set c v r) = Some v.
Proof.
  induction r as [|[k x] r IH]; simpl.
  - now rewrite String.eqb_refl.
  - destruct (String.eqb c k) eqn:E; simpl; rewrite E; [reflexivity|exact IH].
Qed.

Lemma row_lookup_set_other (c c' : string) (v : cell) (r : Row) :
  String.eqb c' c = false -> row_lookup c' (row_set c v r) = row_lookup c' r.
Proof.
  intros Hne. induction r as [|[k x] r IH]; simpl.
  - now rewrite Hne.
  - destruct (String.eqb c k) eqn:E; simpl.
    + apply String.eqb_eq in E. subst k. now rewrite Hne.
    + now rewrite IH.
Qed.

Lemma res_mapM_each {A B} (f : A -> res B) (l : list A) (bs : list B) :
  res_mapM f l = Ok bs -> forall a, In a l -> exists b, f a = Ok b.
Proof.
  revert bs. induction l as [|x l IH]; simpl; intros bs H a Ha; [contradiction|].
  destruct (f x) as [b|e] eqn:Hx; simpl in H; [|discriminate].
  destruct (res_mapM f l) as [bs'|e]; simpl in H; [|discriminate].
  destruct Ha as [<-|Ha]; [now exists b|]. now apply (IH bs').
Qed.

Lemma combine_map_r {A B C} (f : A -> B) (h : A * B -> C) (l : list A) :
  map h (combine l (map f l)) = map (fun a => h (a, f a)) l.
Proof. induction l as [|a l IH]; simpl; [reflexivity|]. now rewrite IH. Qed.

(** X11. A heatmap that renders shows one table with the three columns
    ROOM_TYPE, ROOM_RISK_SCORE and RISK_LEVEL and one row per room of the
    view, in order: the room's type, its score and the label of that score
    (a RISK_LEVEL column the room table may already carry is replaced). *)
Theorem heatmap_table_rows (room_view : DataFrame) :
  outcome (room_heatmap room_view) = Return tt ->
  shown_frames (trace (room_heatmap room_view)) =
  [mkDF ["ROOM_TYPE"; "ROOM_RISK_SCORE"; "RISK_LEVEL"] (map heat_row (rows room_view))].
Proof.
  unfold room_heatmap. cbv zeta. rewrite bind_st. cbn [trace outcome fst snd].
  unfold df_getitem. destruct (has_column room_view "ROOM_RISK_SCORE"); [|discriminate].
  rewrite bind_ok.
  destruct (res_mapM heatmap_label (map (row_get "ROOM_RISK_SCORE" NaN) (rows room_view)))
    as [labels|e] eqn:Hl; [|discriminate].
  rewrite bind_ok.
  destruct (df_project _ _) as [table|e] eqn:Hp; [|discriminate].
  rewrite bind_ok. intros _. rewrite bind_st.
  cbn [st trace fst shown_frames flat_map app].
  unfold df_project in Hp.
  destruct (filter _ _); [|discriminate]. inversion Hp; subst table. clear Hp.
  unfold df_setitem. cbn [rows].
  rewrite (res_mapM_ok _ "" _ _ Hl), !map_map.
  rewrite (combine_map_r _
             (fun rv => map (fun c => (c, row_get c NaN
                                            (row_set "RISK_LEVEL" (snd rv) (fst rv))))
                          ["ROOM_TYPE"; "ROOM_RISK_SCORE"; "RISK_LEVEL"])).
  rewrite app_nil_l, !app_nil_r. do 2 f_equal.
  apply map_ext_in. intros r Hr. cbn [map fst snd]. unfold heat_row.
  destruct (res_mapM_each _ _ _ Hl (row_get "ROOM_RISK_SCORE" NaN r)) as [l ->];
    [now apply in_map|].
  unfold row_get.
  rewrite row_lookup_set_same, !row_lookup_set_other by reflexivity.
  reflexivity.
Qed.

Lemma heatmap_table_rows_witness :
  shown_frames (trace (room_heatmap Sample.room_table)) =
  [mkDF ["ROOM_TYPE"; "ROOM_RISK_SCORE"; "RISK_LEVEL"]
     (map heat_row (rows Sample.room_table))].
Proof. apply (heatmap_table_rows Sample.room_table). reflexivity. Defined.

(** ** Detected defects *)

(** One image row is one cell of the grid, in column [i mod 3], whether or
    not its caption can be built. *)
Lemma show_image_column {py : PythonRuntime} (i : nat) (row : Row) :
  column_indices (trace (show_image i row)) = [i mod 3].
Proof.
  unfold show_image, within.
  match goal with |- context [let (_, _) := ?m in _] => destruct m end.
  reflexivity.
Qed.

Lemma column_indices_app (a b : list widget) :
  column_indices (a ++ b) = column_indices a ++ column_indices b.
Proof. unfold column_indices. apply flat_map_app. Qed.

Lemma images_columns {py : PythonRuntime} (l : list Row) (i : nat) :
  exists k,
    (k <= length l)%nat /\
    column_indices (trace (for_enumerate i l show_image)) =
    map (fun j => j mod 3) (seq i k) /\
    (outcome (for_enumerate i l show_image) = Return tt -> k = length l).
Proof.
  revert i. induction l as [|r l IH]; intros i.
  - exists 0%nat. repeat split; auto.
  - cbn [for_enumerate]. rewrite trace_bind, outcome_bind, column_indices_app.
    rewrite show_image_column.
    destruct (outcome (show_image i r)) as [[]|e|].
    + destruct (IH (S i)) as (k & Hk & Hc & Ho).
      exists (S k). cbn [length seq map app]. rewrite Hc.
      repeat split; [lia|]. intros H. now rewrite (Ho H).
    + exists 1%nat. cbn [length seq map app column_indices flat_map].
      repeat split; [lia|discriminate].
    + exists 1%nat. cbn [length seq map app column_indices flat_map].
      repeat split; [lia|discriminate].
Qed.

(** X12. The images of the property are dealt into the three columns in
    turn: the k-th image rendered sits in column k mod 3, so no column index
    leaves 0..2 and the columns fill evenly; all images of the property are
    rendered when the section runs to its end, and on a failure those up to
    the failing row. *)
Theorem images_dealt_round_robin {py : PythonRuntime} (image_df : DataFrame)
    (property_id : cell) :
  exists k,
    (k <= count_rows_for property_id (rows image_df))%nat /\
    column_indices (trace (vision_findings image_df property_id)) =
    map (fun j => j mod 3) (seq 0 k) /\
    (outcome (vision_findings image_df property_id) = Return tt ->
     k = count_rows_for property_id (rows image_df)) /\
    Forall (fun i => (i < 3)%nat)
      (column_indices (trace (vision_findings image_df property_id))).
Proof.
  assert (Hb : forall k, Forall (fun i => (i < 3)%nat) (map (fun j => j mod 3) (seq 0 k))).
  { intros k. apply Forall_forall. intros x Hx.
    apply in_map_iff in Hx as (j & <- & _). now apply Nat.mod_upper_bound. }
  unfold vision_findings. rewrite bind_st. cbn [trace outcome fst snd].
  destruct (has_column image_df "PROPERTY_ID") eqn:Hc.
  - rewrite df_where_eq_rows by exact Hc. rewrite bind_ok, bind_st.
    cbn [rows trace outcome fst snd]. rewrite trace_bind, outcome_bind.
    rewrite count_rows_for_filter.
    destruct (images_columns
                (filter (fun r => cell_eqb (row_get "PROPERTY_ID" NaN r) property_id)
                   (rows image_df)) 0) as (k & Hk & Hi & Ho).
    exists k. split; [exact Hk|].
    assert (E : column_indices
                  (subheader "🖼️ Detected Defects (Sample Images)" :: st_columns 3 ::
                   trace (for_enumerate 0
                            (filter (fun r => cell_eqb (row_get "PROPERTY_ID" NaN r)
                                                property_id) (rows image_df))
                            show_image) ++
                   match outcome (for_enumerate 0
                            (filter (fun r => cell_eqb (row_get "PROPERTY_ID" NaN r)
                                                property_id) (rows image_df))
                            show_image) with
                   | Return _ => trace (st divider)
                   | _ => []
                   end) = map (fun j => j mod 3) (seq 0 k)).
    { change (?x :: ?y :: ?l ++ ?d) with ([x; y] ++ l ++ d).
      rewrite !column_indices_app, Hi.
      destruct (outcome (for_enumerate 0 _ show_image)); cbn; now rewrite app_nil_r. }
    rewrite E. split; [reflexivity|]. split; [|apply Hb].
    destruct (outcome (for_enumerate 0 _ show_image)) as [[]|e|]; try discriminate.
    intros _. now apply Ho.
  - rewrite df_where_eq_no_column by exact Hc.
    exists 0%nat. cbn. repeat split; try lia; try discriminate. constructor.
Qed.

Lemma row_get_none (c : string) (d : cell) (r : Row) :
  row_lookup c r = None -> row_get c d r = d.
Proof. unfold row_get. now intros ->. Qed.

Lemma row_get_some (c : string) (d v : cell) (r : Row) :
  row_lookup c r = Some v -> row_get c d r = v.
Proof. unfold row_get. now intros ->. Qed.

(** X13. One image row: a row without DEFECT_CONFIDENCE is captioned
    "Confidence: 0%", one without DEFECT_LABEL "Unknown", one without
    IMAGE_URL gets the placeholder picture; a confidence that is NaN (a
    missing value in the column) raises ValueError after the picture is
    already rendered, and no caption follows. *)
Theorem show_image_defaults {py : PythonRuntime} (i : nat) (row : Row) (room_type : cell) :
  row_lookup "ROOM_TYPE" row = Some room_type ->
  (row_lookup "DEFECT_CONFIDENCE" row = None ->
   show_image i row =
   ([in_column (i mod 3)
       [image (row_get "IMAGE_URL" (Str "https://via.placeholder.com/200") row);
        caption (fstring [str room_type; " – ";
                          str (row_get "DEFECT_LABEL" (Str "Unknown") row);
                          " (Confidence: "; "0"; "%)"])]],
    Return tt)) /\
  (row_lookup "DEFECT_CONFIDENCE" row = Some NaN ->
   show_image i row =
   ([in_column (i mod 3)
       [image (row_get "IMAGE_URL" (Str "https://via.placeholder.com/200") row)]],
    Uncaught (ValueError "cannot convert float NaN to integer"))) /\
  (row_lookup "IMAGE_URL" row = None ->
   row_get "IMAGE_URL" (Str "https://via.placeholder.com/200") row
   = Str "https://via.placeholder.com/200") /\
  (row_lookup "DEFECT_LABEL" row = None ->
   row_get "DEFECT_LABEL" (Str "Unknown") row = Str "Unknown").
Proof.
  intros Ht. unfold show_image. rewrite bind_st.
  rewrite (row_getitem_lookup _ _ _ Ht), bind_ok.
  repeat split.
  - intros Hc. rewrite (row_get_none "DEFECT_CONFIDENCE" _ _ Hc). reflexivity.
  - intros Hc. rewrite (row_get_some "DEFECT_CONFIDENCE" _ _ _ Hc). reflexivity.
  - intros Hc. now apply row_get_none.
  - intros Hc. now apply row_get_none.
Qed.

Lemma show_image_defaults_witness :
  show_image (py := Sample.runtime) 4
    [("PROPERTY_ID", Str "P1"); ("ROOM_TYPE", Str "Attic"); ("DEFECT_CONFIDENCE", NaN)] =
  ([in_column 1 [image (Str "https://via.placeholder.com/200")]],
   Uncaught (ValueError "cannot convert float NaN to integer")).
Proof.
  apply (proj1 (proj2 (show_image_defaults (py := Sample.runtime) 4
                         [("PROPERTY_ID", Str "P1"); ("ROOM_TYPE", Str "Attic");
                          ("DEFECT_CONFIDENCE", NaN)]
                         (Str "Attic") eq_refl))).
  reflexivity.
Defined.

(** ** Bank signal and summary *)

Lemma cell_eqb_str_neq (d : cell) (s : string) : d <> Str s -> cell_eqb d (Str s) = false.
Proof.
  destruct d as [t| | | |]; simpl; try reflexivity.
  intros H. apply String.eqb_neq. intros ->. now apply H.
Qed.

(** Closes the cases of a box chosen by comparing a cell with string codes. *)
Ltac box_case :=
  intros; subst;
  repeat match goal with
         | H : _ \/ _ |- _ => destruct H
         | H : Some _ = Some _ |- _ => inversion H; clear H; subst
         end;
  try discriminate; try reflexivity;
  try match goal with
      | N : ?d <> Str ?s, E : cell_eqb ?d (Str ?s) = true |- _ =>
          rewrite (cell_eqb_str_neq d s N) in E; discriminate
      end;
  try (exfalso; congruence).

(** X14. The bank section reads the first row of the bank table for the
    property and shows one box: an error for LOAN_REJECT, a warning for
    MANUAL_REVIEW and also when the table has no BANK_DECISION column, and
    the approval message for every other value, a missing one (NaN) and an
    unknown code included. *)
Theorem bank_signal_box (bank_df : DataFrame) (property_id : cell) (row : Row)
    (rest : list Row) :
  has_column bank_df "PROPERTY_ID" = true ->
  filter (for_property property_id) (rows bank_df) = row :: rest ->
  exists box,
    bank_signal bank_df property_id =
    ([subheader "🏦 Bank / Mortgage Risk Signal"; box; divider], Return tt) /\
    (row_lookup "BANK_DECISION" row = Some (Str "LOAN_REJECT") ->
     box = error "Loan not recommended due to safety risks") /\
    (row_lookup "BANK_DECISION" row = Some (Str "MANUAL_REVIEW") \/
     row_lookup "BANK_DECISION" row = None ->
     box = warning "Manual review required") /\
    (forall d, row_lookup "BANK_DECISION" row = Some d ->
       d <> Str "LOAN_REJECT" -> d <> Str "MANUAL_REVIEW" ->
       box = success "Property suitable for standard loan approval").
Proof.
  intros Hc Hf. unfold bank_signal, bank_lookup. rewrite bind_st.
  rewrite df_where_eq_rows by exact Hc. cbn [res_bind rows].
  unfold for_property in Hf. rewrite Hf. cbn [iloc0]. rewrite bind_ok.
  destruct (row_lookup "BANK_DECISION" row) as [d|] eqn:Hd.
  - rewrite (row_get_some _ _ _ _ Hd).
    destruct (cell_eqb d (Str "LOAN_REJECT")) eqn:E1;
      [|destruct (cell_eqb d (Str "MANUAL_REVIEW")) eqn:E2];
      (eexists; split; [reflexivity|]);
      (split; [|split]); box_case.
  - rewrite (row_get_none _ _ _ Hd).
    eexists. split; [reflexivity|]. split; [|split]; box_case.
Qed.

Lemma bank_signal_box_witness :
  exists box,
    bank_signal
      (mkDF ["PROPERTY_ID"; "BANK_DECISION"]
         [[("PROPERTY_ID", Str "P1"); ("BANK_DECISION", NaN)]]) (Str "P1") =
    ([subheader "🏦 Bank / Mortgage Risk Signal"; box; divider], Return tt) /\
    box = success "Property suitable for standard loan approval".
Proof.
  destruct (bank_signal_box
              (mkDF ["PROPERTY_ID"; "BANK_DECISION"]
                 [[("PROPERTY_ID", Str "P1"); ("BANK_DECISION", NaN)]]) (Str "P1")
              [("PROPERTY_ID", Str "P1"); ("BANK_DECISION", NaN)] [] eq_refl eq_refl)
    as (box & Hb & _ & _ & Hs).
  exists box. split; [exact Hb|].
  apply (Hs NaN eq_refl); discriminate.
Defined.

(** X15. The summary section shows the SUMMARY_TEXT of the first summary
    row of the property (later rows for the same id are ignored), in an
    error box when the property's risk level is HIGH, a warning box when it
    is MEDIUM and a success box for any other level. *)
Theorem plain_summary_box {py : PythonRuntime} (summary_df : DataFrame)
    (property_id : cell) (property_row row : Row) (rest : list Row) (level : cell) :
  has_column summary_df "PROPERTY_ID" = true ->
  has_column summary_df "SUMMARY_TEXT" = true ->
  filter (for_property property_id) (rows summary_df) = row :: rest ->
  row_lookup "RISK_LEVEL" property_row = Some level ->
  exists box,
    plain_summary summary_df property_id property_row =
    ([subheader "Plain-Language Inspection Summary"; box; divider], Return tt) /\
    (level = Str "HIGH" -> box = error (str (row_get "SUMMARY_TEXT" NaN row))) /\
    (level = Str "MEDIUM" -> box = warning (str (row_get "SUMMARY_TEXT" NaN row))) /\
    (level <> Str "HIGH" -> level <> Str "MEDIUM" ->
     box = success (str (row_get "SUMMARY_TEXT" NaN row))).
Proof.
  intros Hp Ht Hf Hl. unfold plain_summary, summary_lookup. rewrite bind_st.
  rewrite df_where_eq_rows by exact Hp. cbn [res_bind].
  unfold df_getitem, has_column. cbn [columns rows].
  fold (has_column summary_df "SUMMARY_TEXT"). rewrite Ht.
  unfold for_property in Hf. rewrite Hf. cbn [res_bind map iloc0]. rewrite bind_ok.
  rewrite (row_getitem_lookup _ _ _ Hl), bind_ok.
  destruct (cell_eqb level (Str "HIGH")) eqn:E1.
  - eexists. split; [reflexivity|]. split; [|split]; box_case.
  - cbv iota. rewrite bind_ok.
    destruct (cell_eqb level (Str "MEDIUM")) eqn:E2;
      (eexists; split; [reflexivity|]); (split; [|split]); box_case.
Qed.

Lemma plain_summary_box_witness :
  exists box,
    plain_summary (py := Sample.runtime) Sample.summary_table (Str "P1") Sample.row_P1 =
    ([subheader "Plain-Language Inspection Summary"; box; divider], Return tt) /\
    box = error "Severe cracks in the kitchen wall.".
Proof.
  destruct (plain_summary_box (py := Sample.runtime) Sample.summary_table (Str "P1")
              Sample.row_P1
              [("PROPERTY_ID", Str "P1");
               ("SUMMARY_TEXT", Str "Severe cracks in the kitchen wall.")]
              [] (Str "HIGH") eq_refl eq_refl eq_refl eq_refl)
    as (box & Hb & Hh & _).
  exists box. split; [exact Hb|]. now apply Hh.
Defined.

(** ** Risk trend *)

Lemma date_range_end_nth (t : Z) (n i : nat) :
  (i < n)%nat ->
  nth i (date_range_end t n) 0%Z = (t - Z.of_nat (n - 1 - i) * day_ns)%Z.
Proof.
  intros H. unfold date_range_end.
  rewrite (nth_indep _ 0%Z ((fun j => (t - Z.of_nat (n - 1 - j) * day_ns)%Z) 0%nat))
    by (rewrite length_map, length_seq; exact H).
  rewrite (map_nth (fun j => (t - Z.of_nat (n - 1 - j) * day_ns)%Z)).
  now rewrite seq_nth by exact H.
Qed.

Lemma date_range_end_length (t : Z) (n : nat) : length (date_range_end t n) = n.
Proof. unfold date_range_end. now rewrite length_map, length_seq. Qed.

(** X16. The trend chart plots the TOTAL_RISK of every row of the property
    table, of all properties and not of the selected one, in table order on
    consecutive days: with n rows the i-th row is dated n-1-i days before
    today, so the last row is dated today. *)
Theorem trend_chart_points (w : World) (property_df : DataFrame) :
  has_column property_df "TOTAL_RISK" = true ->
  exists points,
    risk_trend w property_df =
    ([subheader "📉 Risk Trend Over Time"; line_chart points; divider], Return tt) /\
    length points = length (rows property_df) /\
    forall i, (i < length (rows property_df))%nat ->
      nth i points (0%Z, NaN) =
      ((today w - Z.of_nat (length (rows property_df) - 1 - i) * day_ns)%Z,
       row_get "TOTAL_RISK" NaN (nth i (rows property_df) [])).
Proof.
  intros Hc. unfold risk_trend. cbv zeta. rewrite bind_st.
  unfold df_getitem. rewrite Hc. rewrite bind_ok, bind_st.
  eexists. split; [reflexivity|]. unfold shape0. split.
  - rewrite length_combine, date_range_end_length, length_map. apply Nat.min_id.
  - intros i Hi. rewrite combine_nth
      by (now rewrite date_range_end_length, length_map).
    rewrite date_range_end_nth by exact Hi. f_equal.
    apply (map_nth (row_get "TOTAL_RISK" NaN) (rows property_df) [] i).
Qed.

Lemma trend_chart_points_witness :
  exists points,
    risk_trend Sample.world Sample.property_table =
    ([subheader "📉 Risk Trend Over Time"; line_chart points; divider], Return tt) /\
    nth 1 points (0%Z, NaN) = (today Sample.world, Int 20).
Proof.
  destruct (trend_chart_points Sample.world Sample.property_table eq_refl)
    as (points & Ht & _ & Hn).
  exists points. split; [exact Ht|]. rewrite (Hn 1%nat) by (simpl; lia). reflexivity.
Defined.

(** ** The inspection focus *)

(** X17. The "Inspection Focus" selectbox has no effect: whatever focus is
    chosen, the run renders the same widgets and ends the same way. *)
Theorem focus_has_no_effect {py : PythonRuntime} (w : World) (i : nat) :
  app (with_focus i w) = app w.
Proof.
  unfold app. rewrite !load_core_tables_loaded.
  assert (E : forall pdf rdf sdf idf bdf,
            dashboard (with_focus i w) pdf rdf sdf idf bdf = dashboard w pdf rdf sdf idf bdf).
  { intros. unfold dashboard. unfold sidebar_controls. rewrite !bind_st.
    unfold ret. cbn [bind trace outcome fst snd]. reflexivity. }
  unfold property_df_of, room_df_of, summary_df_of, image_df_of, bank_df_of, load_errors.
  cbn [with_focus session_sql]. cbn [bind]. rewrite E. reflexivity.
Qed.

(** ** The total risk metric *)

(** X18. The "Total Risk Score" metric shows the integer part of the total:
    [int()] rounds a double towards zero, so the value shown is within one
    of the total and never larger in magnitude, and an integral total is
    shown as it is. *)
Theorem total_risk_metric_truncates {py : PythonRuntime} (q : Q) :
  exists z,
    py_int (Float q) = Ok z /\
    (0 <= q -> inject_Z z <= q /\ q < inject_Z z + 1) /\
    (q <= 0 -> inject_Z z - 1 < q /\ q <= inject_Z z) /\
    (forall k, q == inject_Z k -> z = k).
Proof.
  destruct q as [a b]. cbn [py_int Qnum Qden]. eexists. split; [reflexivity|].
  pose proof (Z.quot_rem' a (Zpos b)) as Hq.
  unfold Qle, Qlt, Qeq, Qplus, Qminus, Qopp, inject_Z. simpl.
  rewrite ?Z.mul_1_r.
  split; [|split].
  - intros H. assert (Hr := Z.rem_bound_pos a (Zpos b) ltac:(lia) ltac:(lia)).
    split; nia.
  - intros H. assert (Hr := Z.rem_bound_pos_neg a (Zpos b) ltac:(lia) ltac:(lia)).
    split; nia.
  - intros k E. assert (E' : a = (k * Zpos b)%Z) by lia. rewrite E'.
    apply Z.quot_mul. lia.
Qed.

Lemma total_risk_metric_truncates_witness :
  exists z, py_int (py := Sample.runtime) (Float (859 # 10)) = Ok z /\ inject_Z z <= 859 # 10.
Proof.
  destruct (total_risk_metric_truncates (py := Sample.runtime) (859 # 10))
    as (z & Hz & Hp & _).
  exists z. split; [exact Hz|]. apply Hp. unfold Qle. simpl. lia.
Defined.

(** ** Loading the five tables *)

(** X19. Loading never ends the run: whatever the session does, the five
    loads return five frames, each the result of its query or the empty
    frame, and render one error message per failed query and nothing else. *)
Theorem loads_never_abort {py : PythonRuntime} (w : World) :
  outcome (load_core_tables w) =
  Return (loaded (session_sql w) property_query, loaded (session_sql w) room_query,
          loaded (session_sql w) summary_query, loaded (session_sql w) image_query,
          loaded (session_sql w) bank_query) /\
  length (trace (load_core_tables w)) =
  length (filter (fun q => match session_sql w q with Raise _ => true | Ok _ => false end)
            [property_query; room_query; summary_query; image_query; bank_query]) /\
  Forall (fun x => exists e, x = error (fstring ["Data load failed: "; exn_msg e]))
    (trace (load_core_tables w)).
Proof.
  rewrite load_core_tables_loaded. cbn [outcome trace fst snd].
  split; [reflexivity|].
  unfold load_errors, load_error. cbn [flat_map filter].
  destruct (session_sql w property_query), (session_sql w room_query),
    (session_sql w summary_query), (session_sql w image_query),
    (session_sql w bank_query); cbn;
    (split; [reflexivity|]);
    repeat (constructor; [eexists; reflexivity|]); constructor.
Qed.

(** ** The download button *)

Lemma downloads_bind_quiet {A B} (m : M A) (k : A -> M B) :
  quiet m ->
  downloads (trace (bind m k)) =
  match outcome m with
  | Return a => downloads (trace (k a))
  | _ => []
  end.
Proof.
  unfold quiet. intros H. rewrite trace_bind, downloads_app, H.
  now destruct (outcome m).
Qed.

Lemma one_download_after_quiet {A B} (m : M A) (k : A -> M B) :
  quiet m -> (forall a, one_download (k a)) -> one_download (bind m k).
Proof.
  unfold one_download, returns. intros Hq Hk.
  rewrite (downloads_bind_quiet m k Hq), outcome_bind.
  destruct (outcome m) as [a|e|].
  - apply Hk.
  - split; [simpl; lia|]. intros [b Hb]. discriminate.
  - split; [simpl; lia|]. intros [b Hb]. discriminate.
Qed.

(** X20. A run offers at most one download button, and a run that renders to
    the footer offers exactly one. *)
Theorem at_most_one_download {py : PythonRuntime} (w : World) :
  (length (downloads (trace (app w))) <= 1)%nat /\
  (outcome (app w) = Return tt -> length (downloads (trace (app w))) = 1%nat).
Proof.
  assert (H : one_download (app w)).
  { unfold app.
    apply one_download_after_quiet; [apply quiet_page_setup|intros _].
    rewrite load_core_tables_loaded.
    apply one_download_after_quiet; [apply quiet_load_errors|intros tables].
    destruct tables as [[[[pdf rdf] sdf] idf] bdf].
    apply one_download_after_quiet.
    { unfold empty_guard. destruct (df_empty pdf); reflexivity. }
    intros _. unfold dashboard.
    apply one_download_after_quiet; [apply quiet_sidebar_controls|intros controls].
    apply one_download_after_quiet; [apply quiet_property_selection|intros sel].
    apply one_download_after_quiet; [apply quiet_key_metrics|intros metrics].
    apply one_download_after_quiet; [apply quiet_room_breakdown|intros view].
    apply one_download_after_quiet; [apply quiet_room_heatmap|intros _].
    apply one_download_after_quiet; [apply quiet_explain_panel|intros _].
    apply one_download_after_quiet; [apply quiet_inspection_coverage|intros _].
    apply one_download_after_quiet; [apply quiet_plain_summary|intros _].
    unfold one_download, returns.
    rewrite trace_bind, outcome_bind, downloads_app, report_downloads.
    unfold report. rewrite !outcome_bind. cbn [st outcome snd].
    destruct (report_text _ _ _ _) as [text|e]; cbn [eval ret outcome snd].
    - rewrite !outcome_bind. cbn [st outcome snd].
      rewrite quiet_after_report. split; reflexivity || auto.
    - split; [simpl; lia|]. intros [a Ha]. discriminate. }
  destruct H as [H1 H2]. split; [exact H1|].
  intros Ho. apply H2. now exists tt.
Qed.

Lemma at_most_one_download_witness :
  length (downloads (trace (app (py := Sample.runtime) Sample.world))) = 1%nat.
Proof.
  apply (proj2 (at_most_one_download (py := Sample.runtime) Sample.world)).
  reflexivity.
Defined.

(** ** The room table on the page *)

Lemma shown_frames_app (a b : list widget) :
  shown_frames (a ++ b) = shown_frames a ++ shown_frames b.
Proof. unfold shown_frames. apply flat_map_app. Qed.

Lemma frameless_ret {A} (a : A) : frameless (ret a).
Proof. reflexivity. Qed.

Lemma frameless_eval {A} (r : res A) : frameless (eval r).
Proof. destruct r; reflexivity. Qed.

Lemma frameless_bind {A B} (m : M A) (f : A -> M B) :
  frameless m -> (forall a, frameless (f a)) -> frameless (bind m f).
Proof.
  unfold frameless. intros Hm Hf. rewrite trace_bind, shown_frames_app, Hm.
  destruct (outcome m); [apply Hf|reflexivity|reflexivity].
Qed.

(** Splits a statement into its calls; none of them is [st.dataframe]. *)
Ltac frameless_step :=
  first
    [ apply frameless_eval
    | apply frameless_ret
    | apply frameless_bind; [|intros ?]
    | match goal with |- frameless (if ?b then _ else _) => destruct b end
    | match goal with |- frameless (st _) => reflexivity end ].

Ltac frameless_tac := cbv zeta; repeat (frameless_step; cbv zeta).

Lemma frameless_load_errors (w : World) : shown_frames (load_errors w) = [].
Proof.
  unfold load_errors, load_error. simpl.
  repeat match goal with
         | |- context [session_sql w ?q] => destruct (session_sql w q)
         end; reflexivity.
Qed.

Lemma frameless_empty_guard (df : DataFrame) : frameless (empty_guard df).
Proof. unfold empty_guard. destruct (df_empty df); reflexivity. Qed.

Lemma frameless_sidebar_controls (w : World) : frameless (sidebar_controls w).
Proof. unfold sidebar_controls. frameless_tac. Qed.

Lemma frameless_property_selection (w : World) (df : DataFrame) :
  frameless (property_selection w df).
Proof. unfold property_selection. frameless_tac. Qed.

Lemma frameless_key_metrics {py : PythonRuntime} (row : Row) (df : DataFrame) (pid : cell) :
  frameless (key_metrics row df pid).
Proof. unfold key_metrics. frameless_tac. Qed.

(** After a statement that shows no table, the first table is the
    continuation's. *)
Lemma first_frame_after_frameless (P : DataFrame -> Prop) {A B} (m : M A) (k : A -> M B) :
  frameless m ->
  (forall a, outcome m = Return a -> first_frame P (k a)) ->
  first_frame P (bind m k).
Proof.
  unfold frameless, first_frame. intros Hm Hk.
  rewrite trace_bind, outcome_bind, shown_frames_app, Hm. cbn [app].
  destruct (outcome m) as [a|e|].
  - now apply Hk.
  - right. split; [reflexivity|discriminate].
  - right. split; [reflexivity|discriminate].
Qed.

(** The room breakdown, call by call: with the view and its chart it
    renders the subheader, the caption, the bar chart, the view and a
    divider; without the chart or without the view it raises before any
    table is shown. *)
Lemma room_breakdown_run (room_df : DataFrame) (property_id : cell) (only_high_risk : bool) :
  room_breakdown room_df property_id only_high_risk =
  match room_view room_df property_id only_high_risk with
  | Ok view =>
      match df_indexed view "ROOM_TYPE" "ROOM_RISK_SCORE" with
      | Ok chart =>
          ([subheader "Room-wise Risk Distribution";
            caption "Risk score per room based on observed inspection findings.";
            bar_chart chart; dataframe view; divider],
           Return view)
      | Raise e =>
          ([subheader "Room-wise Risk Distribution";
            caption "Risk score per room based on observed inspection findings."],
           Uncaught e)
      end
  | Raise e => ([subheader "Room-wise Risk Distribution"], Uncaught e)
  end.
Proof.
  unfold room_breakdown. rewrite bind_st.
  destruct (room_view room_df property_id only_high_risk) as [view|e]; [|reflexivity].
  rewrite bind_ok, bind_st.
  destruct (df_indexed view "ROOM_TYPE" "ROOM_RISK_SCORE") as [chart|e]; reflexivity.
Qed.

(** The first table of a run is the room view of the selected property
    under the state of the high-risk checkbox. *)
Lemma app_first_frame {py : PythonRuntime} (w : World) (pid : cell) (row : Row)
    (view : DataFrame) :
  outcome (property_selection w (property_df_of w)) = Return (pid, row) ->
  room_view (room_df_of w) pid (ui_only_high_risk w) = Ok view ->
  first_frame (fun f => f = view) (app w).
Proof.
  intros Hsel Hview. unfold app.
  apply first_frame_after_frameless; [reflexivity|intros _ _].
  rewrite load_core_tables_loaded.
  apply first_frame_after_frameless; [apply frameless_load_errors|intros tables Ht].
  cbn [outcome snd] in Ht. inversion Ht; subst tables. clear Ht.
  apply first_frame_after_frameless; [apply frameless_empty_guard|intros _ _].
  unfold dashboard.
  apply first_frame_after_frameless; [apply frameless_sidebar_controls|intros controls Hc].
  assert (Hb : snd controls = ui_only_high_risk w).
  { unfold sidebar_controls in Hc. rewrite !bind_st in Hc.
    cbn [ret outcome snd] in Hc. inversion Hc. reflexivity. }
  rewrite Hb. clear Hb Hc.
  apply first_frame_after_frameless; [apply frameless_property_selection|intros sel Hs].
  rewrite Hsel in Hs. inversion Hs; subst sel. cbn [fst snd]. clear Hs.
  apply first_frame_after_frameless; [apply frameless_key_metrics|intros metrics _].
  unfold first_frame. rewrite trace_bind, outcome_bind, shown_frames_app.
  rewrite room_breakdown_run, Hview.
  destruct (df_indexed view "ROOM_TYPE" "ROOM_RISK_SCORE") as [chart|e].
  - left. cbn [trace outcome fst snd shown_frames flat_map app].
    eexists. eexists. split; reflexivity.
  - right. split; [reflexivity|discriminate].
Qed.

(** C10. The room table the page displays holds exactly the rows of the
    selected property, and with "Highlight only high-risk rooms" on only
    those whose score is at least 60: a room of the property with score s
    is kept exactly when s >= 60, so the MEDIUM tier [60, 80) stays along
    with the HIGH tier; with the option off every room of the property is
    kept.  The breakdown section renders that view as its one table, and in
    a run of the page the first table shown is that view for the selected
    property and the state of the checkbox; a run that reaches its end
    shows it. *)
Theorem room_view_filter {py : PythonRuntime} (room_df : DataFrame) (property_id : cell)
    (only_high_risk : bool) (view : DataFrame) :
  room_view room_df property_id only_high_risk = Ok view ->
  columns view = columns room_df /\
  rows view = filter (displayed_room property_id only_high_risk) (rows room_df) /\
  (forall r s,
     In r (rows room_df) ->
     cell_eqb (row_get "PROPERTY_ID" NaN r) property_id = true ->
     cell_num (row_get "ROOM_RISK_SCORE" NaN r) = Some s ->
     (In r (rows view) <-> (only_high_risk = true -> 60 <= s))) /\
  (forall df, In (dataframe df) (trace (room_breakdown room_df property_id only_high_risk)) ->
     df = view) /\
  (forall chart, df_indexed view "ROOM_TYPE" "ROOM_RISK_SCORE" = Ok chart ->
     room_breakdown room_df property_id only_high_risk =
     ([subheader "Room-wise Risk Distribution";
       caption "Risk score per room based on observed inspection findings.";
       bar_chart chart; dataframe view; divider],
      Return view)) /\
  (forall w row,
     room_df = room_df_of w ->
     only_high_risk = ui_only_high_risk w ->
     outcome (property_selection w (property_df_of w)) = Return (property_id, row) ->
     (forall f later, shown_frames (trace (app w)) = f :: later -> f = view) /\
     (outcome (app w) = Return tt ->
      hd_error (shown_frames (trace (app w))) = Some view)).
Proof.
  intros H.
  pose proof (room_view_rows _ _ _ _ H) as E.
  split; [now rewrite E|]. split; [now rewrite E|]. split; [|split; [|split]].
  - intros r s Hr Hpid Hs. rewrite E. cbn [rows]. rewrite filter_In.
    unfold displayed_room, scores_60. rewrite Hpid.
    rewrite (cell_ge_num _ s 60 Hs). cbn [andb].
    destruct only_high_risk.
    + rewrite Qle_bool_iff. change (inject_Z 60) with 60. tauto.
    + split; [discriminate|auto].
  - intros df Hin. rewrite room_breakdown_run, H in Hin.
    destruct (df_indexed view "ROOM_TYPE" "ROOM_RISK_SCORE") as [chart|e];
      cbn [trace fst] in Hin.
    + repeat (destruct Hin as [Hin|Hin]; [try discriminate|]).
      * now inversion Hin.
      * contradiction.
    + destruct Hin as [Hin|[Hin|[]]]; discriminate.
  - intros chart Hc. now rewrite room_breakdown_run, H, Hc.
  - intros w row -> -> Hsel.
    destruct (app_first_frame w property_id row view Hsel H)
      as [(f & later & -> & Hf)|[Hf Ho]].
    + split.
      * intros f' later' Hf'. rewrite Hf in Hf'. now inversion Hf'.
      * intros _. now rewrite Hf.
    + split.
      * intros f' later' Hf'. rewrite Hf in Hf'. discriminate.
      * intros Hr. now apply Ho in Hr.
Qed.

Lemma room_view_filter_witness :
  rows (mkDF (columns Sample.room_table)
          [Sample.room "P1" "Kitchen" 85; Sample.room "P1" "Bathroom" 65])
  = filter (displayed_room (Str "P1") true) (rows Sample.room_table) /\
  In (Sample.room "P1" "Bathroom" 65)
     [Sample.room "P1" "Kitchen" 85; Sample.room "P1" "Bathroom" 65] /\
  hd_error (shown_frames (trace (app (py := Sample.runtime) Sample.world_later)))
  = Some (mkDF (columns Sample.room_table)
            [Sample.room "P1" "Kitchen" 85; Sample.room "P1" "Bathroom" 65]).
Proof.
  destruct (room_view_filter (py := Sample.runtime) Sample.room_table (Str "P1") true
              (mkDF (columns Sample.room_table)
                 [Sample.room "P1" "Kitchen" 85; Sample.room "P1" "Bathroom" 65])
              eq_refl) as (_ & Hrows & Hin & _ & _ & Hpage).
  split; [exact Hrows|]. split.
  - apply (Hin (Sample.room "P1" "Bathroom" 65) 65).
    + simpl. auto.
    + reflexivity.
    + reflexivity.
    + intros _. lra.
  - apply (proj2 (Hpage Sample.world_later Sample.row_P1 eq_refl eq_refl eq_refl)).
    reflexivity.
Defined.
